(** * Lane_Notebook: the lane-detection pipeline of the notebook

    A shallow embedding of the three functions the notebook defines
    ([prepare_out_blend_frame], [compute_offset_from_center] and
    [process_pipeline]) together with the module-level state they work on
    ([line_lt], [line_rt], [processed_frames]).

    Conventions of the embedding.
    - numpy scalars are exact rationals ([Q]); the one special value the
      notebook's arithmetic can produce from finite inputs, the [nan] that
      [np.mean] returns on an empty selection, is kept as [NaN].  Where a
      statement says how close two differently computed values are,
      [compute_offset_from_center] is taken in rounded arithmetic
      ([compute_offset_from_center_fl]), every operation rounded.
    - Python exceptions are results ([Raises]), not omitted cases.
    - The module-level globals are an explicit [session] threaded through
      a small state-and-exception monad that also records, in order, every
      assignment to a global and every call of an imported collaborator.
    - Images are terms: an opaque array of known height and width, or a
      cv2 / numpy operation of the notebook applied to images.  Pixel
      values are not computed; heights and widths are, and with them the
      two ways the stitching can fail: [cv2.resize] to an empty size, and
      a slice assignment whose value does not fit the slice.  Arrays have
      the number of channels the docstrings say.
    - What the notebook imports ([undistort], [binarize], [birdeye], the
      two searches, [draw_back_onto_the_road], [xm_per_pix]) is a parameter
      ([environment]); the [Line] class, imported as well, is modelled
      from its description. *)

From Stdlib Require Import String DecimalString ZArith QArith Qabs Qround Lqa Lia Bool List.
Import ListNotations.
Local Open Scope Q_scope.

(** ** Numbers *)

(** A numpy float as the notebook sees it: a finite value or [nan]. *)
Inductive num : Type :=
| Fin (q : Q)
| NaN.

Definition num_lift2 (f : Q -> Q -> Q) (a b : num) : num :=
  match a, b with
  | Fin x, Fin y => Fin (f x y)
  | _, _ => NaN
  end.

Definition num_add : num -> num -> num := num_lift2 Qplus.
Definition num_sub : num -> num -> num := num_lift2 Qminus.
Definition num_mul : num -> num -> num := num_lift2 Qmult.

(** Division by a positive integer literal (the notebook only divides by 2). *)
Definition num_div_lit (a : num) (d : positive) : num :=
  match a with
  | Fin x => Fin (x / inject_Z (Zpos d))
  | NaN => NaN
  end.

(** Python's built-in [abs]. *)
Definition num_abs (a : num) : num :=
  match a with
  | Fin x => Fin (Qabs x)
  | NaN => NaN
  end.

(** [a > b] on rationals, as a boolean. *)
Definition Qgtb (a b : Q) : bool := negb (Qle_bool a b).

(** ** Exceptions and results *)

Inductive exn : Type :=
| ValueError   (* reduction of a zero-size array; value that does not
                  broadcast into a slice *)
| IndexError   (* boolean index of the wrong length *)
| Cv2Error.    (* [cv2.error], an OpenCV assertion *)

Inductive outcome (A : Type) : Type :=
| Returns (a : A)
| Raises (e : exn).
Arguments Returns {A} a.
Arguments Raises {A} e.

(** ** The numpy operations used by the notebook *)

Definition np_sum (xs : list Q) : Q := fold_left Qplus xs 0.

(** [np.mean]: the sum over the count; [nan] for an empty array. *)
Definition np_mean (xs : list Q) : num :=
  match xs with
  | [] => NaN
  | _ :: _ => Fin (np_sum xs / inject_Z (Z.of_nat (length xs)))
  end.

Definition Qmax (a b : Q) : Q := if Qle_bool a b then b else a.

(** [ndarray.max()]: raises on a zero-size array. *)
Definition np_max (ys : list Q) : outcome Q :=
  match ys with
  | [] => Raises ValueError
  | y :: ys' => Returns (fold_left Qmax ys' y)
  end.

(** [ys > thr], element by element. *)
Definition np_greater (ys : list Q) (thr : Q) : list bool :=
  map (fun y => Qgtb y thr) ys.

Fixpoint select_mask (xs : list Q) (mask : list bool) : list Q :=
  match xs, mask with
  | x :: xs', b :: mask' =>
      if b then x :: select_mask xs' mask' else select_mask xs' mask'
  | _, _ => []
  end.

(** [xs[mask]] with a boolean mask: the mask must have the array's length. *)
Definition np_index_mask (xs : list Q) (mask : list bool) : outcome (list Q) :=
  if Nat.eqb (length xs) (length mask)
  then Returns (select_mask xs mask)
  else Raises IndexError.

(** ** Line *)

(** Coefficients (a, b, c) of x = a*y^2 + b*y + c. *)
Record FitCoefficients : Type := mkFit { coef_a : Q; coef_b : Q; coef_c : Q }.

(** One entry of a line's history: the pixel-space and the meter-space fit
    of one frame. *)
Record FitPair : Type := mkFitPair
  { fit_pixel : FitCoefficients; fit_meter : FitCoefficients }.

(** Modelled from the spec: the [Line] class of [line_utils], which the
    notebook imports and which is not among the sources.  The attributes
    [detected], [all_x], [all_y] and [curvature_meter] are the ones the
    notebook reads, [buffer_len] is the constructor's keyword, [history]
    is the spec's bounded sequence of fits. *)
Record Line : Type := mkLine
  { buffer_len : nat;
    detected : bool;
    history : list FitPair;
    all_x : list Q;
    all_y : list Q;
    curvature_meter : Q }.

(** Modelled from the spec: "appends ... to history (evicting oldest if at
    capacity)", with "history length <= buffer size at all times". *)
Definition history_push {A : Type} (k : nat) (h : list A) (fit : A) : list A :=
  let h' := h ++ [fit] in
  skipn (length h' - k) h'.

(** Modelled from the spec: [update(pixel_x, pixel_y, fit_pixel, fit_meter)]
    of the [Line] class (not among the sources). *)
Definition update (l : Line) (pixel_x pixel_y : list Q)
    (fp fm : FitCoefficients) : Line :=
  {| buffer_len := buffer_len l;
     detected := true;
     history := history_push (buffer_len l) (history l) (mkFitPair fp fm);
     all_x := pixel_x;
     all_y := pixel_y;
     curvature_meter := curvature_meter l |}.

(** Modelled from the spec: [mark_undetected()] of the [Line] class (not
    among the sources); pixels and curvature keep their last values. *)
Definition mark_undetected (l : Line) : Line :=
  {| buffer_len := buffer_len l;
     detected := false;
     history := history l;
     all_x := all_x l;
     all_y := all_y l;
     curvature_meter := curvature_meter l |}.

(** Modelled from the spec: [Line(buffer_len=...)], a fresh line with an
    empty history (the class is not among the sources). *)
Definition new_Line (k : nat) : Line :=
  {| buffer_len := k; detected := false; history := [];
     all_x := []; all_y := []; curvature_meter := 0 |}.

(** The two ways a line changes from frame to frame. *)
Inductive Line_op : Type :=
| Update (pixel_x pixel_y : list Q) (fp fm : FitCoefficients)
| MarkUndetected.

Definition apply_op (l : Line) (op : Line_op) : Line :=
  match op with
  | Update px py fp fm => update l px py fp fm
  | MarkUndetected => mark_undetected l
  end.

(** A line after a sequence of frames. *)
Definition run_ops (l : Line) (ops : list Line_op) : Line :=
  fold_left apply_op ops l.

(** The update that records one fit (with the pixels it was fitted to). *)
Definition update_of (f : list Q * list Q * FitPair) : Line_op :=
  let '(px, py, fit) := f in Update px py (fit_pixel fit) (fit_meter fit).

(** ** Images and text *)

(** An image is an opaque array of known height and width, or the result
    of one of the cv2 / numpy operations the notebook applies.  Frames are
    colour images: the channel axis, three long in every image the
    stitching puts together, is left out. *)
Inductive image : Type :=
| Array (h w : Z) (id : nat)
| Rectangle (img : image) (pt1 pt2 : Z * Z) (color : Z * Z * Z) (thickness : Z)
| AddWeighted (src1 : image) (alpha : Q) (src2 : image) (beta gamma : Q)
| Resize (src : image) (dsize : Z * Z)
| Dstack (a b c : image)
| Scale (img : image) (k : Z)
| SetRegion (dst : image) (rows cols : Z * Z) (src : image)
| PutText (img : image) (text : string) (org : Z * Z) (fontFace : Z)
    (fontScale : Q) (color : Z * Z * Z) (thickness : Z) (lineType : Z).

(** [img.shape[:2]]: height and width. *)
Fixpoint shape (img : image) : Z * Z :=
  match img with
  | Array h w _ => (h, w)
  | Rectangle i _ _ _ _ => shape i
  | AddWeighted i _ _ _ _ => shape i
  | Resize _ (w, h) => (h, w)
  | Dstack a _ _ => shape a
  | Scale i _ => shape i
  | SetRegion d _ _ _ => shape d
  | PutText i _ _ _ _ _ _ _ => shape i
  end.

(** [cv2.resize(src, dsize=(w, h))]: OpenCV refuses an empty source and
    an empty target size. *)
Definition cv2_resize (src : image) (dsize : Z * Z) : outcome image :=
  let '(sh, sw) := shape src in
  let '(dw, dh) := dsize in
  if ((0 <? sh) && (0 <? sw) && (0 <? dw) && (0 <? dh))%Z
  then Returns (Resize src dsize)
  else Raises Cv2Error.

(** One bound of a slice on an axis of length [n], as [slice.indices]
    places it: from the end when negative, never outside the axis. *)
Definition np_slice_bound (i n : Z) : Z :=
  if (i <? 0)%Z then Z.max (i + n) 0 else Z.min i n.

(** The number of indices [a:b] selects on an axis of length [n]. *)
Definition np_slice_len (ab : Z * Z) (n : Z) : Z :=
  Z.max 0 (np_slice_bound (snd ab) n - np_slice_bound (fst ab) n).

(** Broadcasting along one axis: a value of length [d] fits [t] places when
    the lengths are equal or the value has length 1. *)
Definition np_broadcasts (d t : Z) : bool := ((d =? t) || (d =? 1))%Z.

(** [dst[r0:r1, c0:c1, :] = src]: the slices are cut to the array, and the
    value must broadcast into what is left of them. *)
Definition np_assign_region (dst : image) (rows cols : Z * Z) (src : image)
  : outcome image :=
  let '(h, w) := shape dst in
  let '(sh, sw) := shape src in
  if np_broadcasts sh (np_slice_len rows h)
     && np_broadcasts sw (np_slice_len cols w)
  then Returns (SetRegion dst rows cols src)
  else Raises ValueError.

(** OpenCV's constants. *)
Definition cv2_FILLED : Z := (-1)%Z.
Definition cv2_FONT_HERSHEY_SIMPLEX : Z := 0%Z.
Definition cv2_LINE_AA : Z := 16%Z.

(** Python's [int()] on a float: truncation towards zero. *)
Definition py_int (q : Q) : Z :=
  if Qle_bool 0 q then Qfloor q else Qceiling q.

(** Rounding to the nearest integer, ties to even (for [q >= 0]). *)
Definition round_half_even (q : Q) : Z :=
  let f := Qfloor q in
  match Qcompare (q - inject_Z f) (1 # 2) with
  | Lt => f
  | Gt => (f + 1)%Z
  | Eq => if Z.even f then f else (f + 1)%Z
  end.

Definition decimal (n : Z) : string :=
  NilZero.string_of_uint (N.to_uint (Z.to_N n)).

(** ['{:.02f}'.format(v)]: sign, integer part, two decimals. *)
Definition format_02f (v : num) : string :=
  match v with
  | NaN => "nan"
  | Fin q =>
      let n := round_half_even (Qabs q * 100) in
      let cents := (n mod 100)%Z in
      ((if Qle_bool 0 q then "" else "-")
       ++ decimal (n / 100) ++ "."
       ++ (if (cents <? 10)%Z then "0" else "") ++ decimal cents)%string
  end.

(** ** Session state and the pipeline monad *)

(** The module-level globals of the notebook's second cell. *)
Record session : Type := mkSession
  { line_lt : Line;
    line_rt : Line;
    processed_frames : Z }.

Inductive gvar : Type := G_line_lt | G_line_rt | G_processed_frames.

(** The collaborators imported from the other modules. *)
Inductive callee : Type :=
| Undistort | Binarize | Birdeye
| GetFitsByPreviousFits | GetFitsBySlidingWindows
| DrawBackOntoTheRoad.

Inductive event : Type :=
| Assign (g : gvar)    (* assignment to a module-level global *)
| Call (f : callee).   (* call of an imported collaborator *)

(** A computation reads and writes the session, may raise, and leaves a
    trace.  An exception keeps the session and the trace reached so far. *)
Definition M (A : Type) : Type := session -> outcome A * session * list event.

Definition ret {A} (a : A) : M A := fun s => (Returns a, s, []).

Definition bind {A B} (c : M A) (k : A -> M B) : M B :=
  fun s =>
    match c s with
    | (Returns a, s1, t1) =>
        match k a s1 with
        | (r, s2, t2) => (r, s2, t1 ++ t2)
        end
    | (Raises e, s1, t1) => (Raises e, s1, t1)
    end.

Definition lift {A} (o : outcome A) : M A := fun s => (o, s, []).

Definition get_global {A} (proj : session -> A) : M A :=
  fun s => (Returns (proj s), s, []).

Definition set_line_lt (l : Line) : M unit :=
  fun s => (Returns tt,
            mkSession l (line_rt s) (processed_frames s),
            [Assign G_line_lt]).

Definition set_line_rt (l : Line) : M unit :=
  fun s => (Returns tt,
            mkSession (line_lt s) l (processed_frames s),
            [Assign G_line_rt]).

Definition set_processed_frames (n : Z) : M unit :=
  fun s => (Returns tt,
            mkSession (line_lt s) (line_rt s) n,
            [Assign G_processed_frames]).

(** Calling a collaborator: its value, and the call in the trace. *)
Definition call {A} (f : callee) (v : A) : M A :=
  fun s => (Returns v, s, [Call f]).

Declare Scope pipeline_scope.
Delimit Scope pipeline_scope with pipeline.
Notation "x <- c ;; k" := (bind c (fun x => k))
  (at level 61, c at next level, right associativity) : pipeline_scope.
Notation "c ;; k" := (bind c (fun _ => k))
  (at level 61, right associativity) : pipeline_scope.
Local Open Scope pipeline_scope.

Definition result_of {A} (r : outcome A * session * list event) : outcome A :=
  fst (fst r).
Definition session_of {A} (r : outcome A * session * list event) : session :=
  snd (fst r).
Definition trace_of {A} (r : outcome A * session * list event) : list event :=
  snd r.

(** ** compute_offset_from_center *)

(** The pixels nearest the vehicle:
    [line.all_x[line.all_y > 0.95 * line.all_y.max()]]. *)
Definition bottom_pixels (line : Line) : outcome (list Q) :=
  match np_max (all_y line) with
  | Raises e => Raises e
  | Returns m =>
      np_index_mask (all_x line) (np_greater (all_y line) ((95 # 100) * m))
  end.

(** [np.mean(line.all_x[line.all_y > 0.95 * line.all_y.max()])], the
    expression the function evaluates once for each line. *)
Definition line_bottom (line : Line) : outcome num :=
  match bottom_pixels line with
  | Raises e => Raises e
  | Returns sel => Returns (np_mean sel)
  end.

(** Which of the two branches of [compute_offset_from_center] runs. *)
Inductive offset_branch : Type := ComputedOffset | SentinelOffset.

Definition offset_branch_of (lline rline : Line) : offset_branch :=
  if detected lline && detected rline then ComputedOffset else SentinelOffset.

Section Notebook.

(** [xm_per_pix], imported from [globals]. *)
Variable xm_per_pix : Q.

Definition compute_offset_from_center (lline rline : Line) (frame_width : Q)
  : M num :=
  match offset_branch_of lline rline with
  | ComputedOffset =>
      line_lt_bottom <- lift (line_bottom lline) ;;
      line_rt_bottom <- lift (line_bottom rline) ;;
      let lane_width := num_sub line_rt_bottom line_lt_bottom in
      let midpoint := frame_width / 2 in
      let offset_pix :=
        num_abs (num_sub (num_add line_lt_bottom (num_div_lit lane_width 2))
                         (Fin midpoint)) in
      let offset_meter := num_mul (Fin xm_per_pix) offset_pix in
      ret offset_meter
  | SentinelOffset =>
      let offset_meter := Fin (-1) in
      ret offset_meter
  end.

End Notebook.

(** ** compute_offset_from_center in rounded arithmetic *)

(** The same function with the arithmetic of float64: every arithmetic
    operation returns the rounding ([rnd]) of the exact result.  [np.mean]
    on float64, whose order of summation is numpy's business, is a
    parameter ([fl_mean]).  Comparisons and [abs] are exact.  The function
    above is this one for [rnd] the identity and [fl_mean] the exact mean. *)
Section Rounded.

Variable rnd : Q -> Q.
Variable fl_mean : list Q -> num.

Definition fl_lift2 (f : Q -> Q -> Q) (a b : num) : num :=
  num_lift2 (fun x y => rnd (f x y)) a b.

Definition fl_div_lit (a : num) (d : positive) : num :=
  match a with
  | Fin x => Fin (rnd (x / inject_Z (Zpos d)))
  | NaN => NaN
  end.

Definition bottom_pixels_fl (line : Line) : outcome (list Q) :=
  match np_max (all_y line) with
  | Raises e => Raises e
  | Returns m =>
      np_index_mask (all_x line)
        (np_greater (all_y line) (rnd (rnd (95 # 100) * m)))
  end.

Definition line_bottom_fl (line : Line) : outcome num :=
  match bottom_pixels_fl line with
  | Raises e => Raises e
  | Returns sel => Returns (fl_mean sel)
  end.

Definition compute_offset_from_center_fl (xm_per_pix : Q)
    (lline rline : Line) (frame_width : Q) : M num :=
  match offset_branch_of lline rline with
  | ComputedOffset =>
      line_lt_bottom <- lift (line_bottom_fl lline) ;;
      line_rt_bottom <- lift (line_bottom_fl rline) ;;
      let lane_width := fl_lift2 Qminus line_rt_bottom line_lt_bottom in
      let midpoint := rnd (frame_width / 2) in
      let offset_pix :=
        num_abs (fl_lift2 Qminus
                   (fl_lift2 Qplus line_lt_bottom (fl_div_lit lane_width 2))
                   (Fin midpoint)) in
      let offset_meter := fl_lift2 Qmult (Fin xm_per_pix) offset_pix in
      ret offset_meter
  | SentinelOffset =>
      let offset_meter := Fin (-1) in
      ret offset_meter
  end.

(** What the computing branch makes of the two bottoms. *)
Definition fl_offset (xm l r w : Q) : Q :=
  rnd (xm * Qabs (rnd (rnd (l + rnd (rnd (r - l) / 2)) - rnd (w / 2)))).

End Rounded.

(** A rounding with relative error at most [u]: the standard model of
    floating-point arithmetic, which float64 meets with [u] = 2^-53 as
    long as nothing overflows or underflows. *)
Definition rounds_within (u : Q) (rnd : Q -> Q) : Prop :=
  0 <= u /\ u <= 1 /\ forall x, Qabs (rnd x - x) <= u * Qabs x.

(** A rounding that is always off by the full relative error [u]. *)
Definition example_rounding (u x : Q) : Q := x * (1 + u).

(** The unit roundoff of float64. *)
Definition u_float64 : Q := 1 # (2 ^ 53).

(** ** prepare_out_blend_frame *)

Definition prepare_out_blend_frame
    (blend_on_road img_binary img_birdeye img_fit : image)
    (lline rline : Line) (offset_meter : num) : M image :=
  let '(h, w) := shape blend_on_road in
  let thumb_ratio := 2 # 10 in
  let thumb_h := py_int (thumb_ratio * inject_Z h) in
  let thumb_w := py_int (thumb_ratio * inject_Z w) in
  let off_x := 20%Z in
  let off_y := 15%Z in
  (* add a gray rectangle to highlight the upper area *)
  let mask := blend_on_road in
  let mask := Rectangle mask (0, 0)%Z (w, thumb_h + 2 * off_y)%Z
                (0, 0, 0)%Z cv2_FILLED in
  let blend_on_road := AddWeighted mask (2 # 10) blend_on_road (8 # 10) 0 in
  (* add thumbnail of binary image *)
  thumb_binary <- lift (cv2_resize img_binary (thumb_w, thumb_h)) ;;
  let thumb_binary := Scale (Dstack thumb_binary thumb_binary thumb_binary) 255 in
  blend_on_road <-
    lift (np_assign_region blend_on_road (off_y, thumb_h + off_y)%Z
            (off_x, off_x + thumb_w)%Z thumb_binary) ;;
  (* add thumbnail of bird's eye view *)
  thumb_birdeye <- lift (cv2_resize img_birdeye (thumb_w, thumb_h)) ;;
  let thumb_birdeye := Scale (Dstack thumb_birdeye thumb_birdeye thumb_birdeye) 255 in
  blend_on_road <-
    lift (np_assign_region blend_on_road (off_y, thumb_h + off_y)%Z
            (2 * off_x + thumb_w, 2 * (off_x + thumb_w))%Z thumb_birdeye) ;;
  (* add thumbnail of bird's eye view (lane-line highlighted) *)
  thumb_img_fit <- lift (cv2_resize img_fit (thumb_w, thumb_h)) ;;
  blend_on_road <-
    lift (np_assign_region blend_on_road (off_y, thumb_h + off_y)%Z
            (3 * off_x + 2 * thumb_w, 3 * (off_x + thumb_w))%Z thumb_img_fit) ;;
  (* add text (curvature and offset info) on the upper right of the blend *)
  let mean_curvature_meter :=
    np_mean [curvature_meter lline; curvature_meter rline] in
  let font := cv2_FONT_HERSHEY_SIMPLEX in
  let blend_on_road :=
    PutText blend_on_road
      ("Curvature radius: " ++ format_02f mean_curvature_meter ++ "m")%string
      (860, 60)%Z font (9 # 10) (255, 255, 255)%Z 2 cv2_LINE_AA in
  let blend_on_road :=
    PutText blend_on_road
      ("Offset from center: " ++ format_02f offset_meter ++ "m")%string
      (860, 130)%Z font (9 # 10) (255, 255, 255)%Z 2 cv2_LINE_AA in
  ret blend_on_road.

(** ** process_pipeline *)

(** What the notebook takes from outside its own three functions: the
    collaborators it imports ([calibration_utils], [binarization_utils],
    [perspective_utils], [line_utils], [globals]), as functions of their
    arguments, and the calibration result [mtx], [dist] that is computed
    once before any frame is processed. *)
Record environment : Type := mkEnvironment
  { calib : Type;
    transform : Type;
    mtx : calib;
    dist : calib;
    xm_per_pix : Q;
    undistort : image -> calib -> calib -> bool -> image;
    binarize : image -> bool -> image;
    birdeye : image -> bool -> image * transform * transform;
    get_fits_by_previous_fits :
      image -> Line -> Line -> bool -> Line * Line * image;
    get_fits_by_sliding_windows :
      image -> Line -> Line -> Z -> bool -> Line * Line * image;
    draw_back_onto_the_road :
      image -> transform -> Line -> Line -> bool -> image }.

Definition process_pipeline (E : environment) (frame : image)
    (keep_state : bool) : M image :=
  (* undistort the image using coefficients found in calibration *)
  img_undistorted <- call Undistort (undistort E frame (mtx E) (dist E) false) ;;
  (* binarize the frame *)
  img_binary <- call Binarize (binarize E img_undistorted false) ;;
  (* compute perspective transform to obtain bird's eye view *)
  view <- call Birdeye (birdeye E img_binary false) ;;
  let '(img_birdeye, _, Minv) := view in
  (* fit 2-degree polynomial curve onto lane lines found *)
  n <- get_global processed_frames ;;
  cur_lt <- get_global line_lt ;;
  cur_rt <- get_global line_rt ;;
  fits <- (if (0 <? n)%Z && keep_state && detected cur_lt && detected cur_rt
           then call GetFitsByPreviousFits
                  (get_fits_by_previous_fits E img_birdeye cur_lt cur_rt false)
           else call GetFitsBySlidingWindows
                  (get_fits_by_sliding_windows E img_birdeye cur_lt cur_rt 9 false)) ;;
  let '(new_lt, new_rt, img_fit) := fits in
  set_line_lt new_lt ;;
  set_line_rt new_rt ;;
  (* compute offset in meter from center of the lane *)
  cur_lt <- get_global line_lt ;;
  cur_rt <- get_global line_rt ;;
  offset_meter <- compute_offset_from_center (xm_per_pix E) cur_lt cur_rt
                    (inject_Z (snd (shape frame))) ;;
  (* draw the surface enclosed by lane lines back onto the original frame *)
  cur_lt <- get_global line_lt ;;
  cur_rt <- get_global line_rt ;;
  blend_on_road <- call DrawBackOntoTheRoad
                     (draw_back_onto_the_road E img_undistorted Minv
                        cur_lt cur_rt keep_state) ;;
  (* stitch on the top of final output images from different steps *)
  cur_lt <- get_global line_lt ;;
  cur_rt <- get_global line_rt ;;
  blend_output <- prepare_out_blend_frame blend_on_road img_binary img_birdeye
                    img_fit cur_lt cur_rt offset_meter ;;
  n <- get_global processed_frames ;;
  set_processed_frames (n + 1)%Z ;;
  ret blend_output.

(** ** The offset as the specification words it *)

(** The line's pixel set, as coordinate pairs. *)
Definition pixels (line : Line) : list (Q * Q) :=
  combine (all_x line) (all_y line).

(** [m] is the line's maximum y. *)
Definition is_max_y (line : Line) (m : Q) : Prop :=
  In m (all_y line) /\ forall y, In y (all_y line) -> y <= m.

(** "the mean x of pixel coordinates whose y exceeds 95% of that line's
    maximum y" *)
Definition spec_bottom_x (line : Line) (m : Q) : num :=
  np_mean (map fst (filter (fun p => Qgtb (snd p) ((95 # 100) * m)) (pixels line))).

(** "lane width = right-bottom-x - left-bottom-x; lane midpoint =
    left-bottom-x + lane_width/2; offset_px = |lane_midpoint -
    frame_width/2|; convert to meters via the fixed x-scale factor" *)
Definition spec_offset (xm_per_pix : Q) (left_bottom_x right_bottom_x : num)
    (frame_width : Q) : num :=
  let lane_width := num_sub right_bottom_x left_bottom_x in
  let lane_midpoint := num_add left_bottom_x (num_div_lit lane_width 2) in
  let offset_px := num_abs (num_sub lane_midpoint (Fin (frame_width / 2))) in
  num_mul (Fin xm_per_pix) offset_px.

(** A well-formed, non-empty pixel set: as many x's as y's, at least one. *)
Definition nonempty_pixel_set (line : Line) : Prop :=
  all_y line <> [] /\ length (all_x line) = length (all_y line).


(** An image with at least one row and one column. *)
Definition nonempty_image (img : image) : Prop :=
  (0 < fst (shape img))%Z /\ (0 < snd (shape img))%Z.

(** A frame with room for the three thumbnails and their margins. *)
Definition room_for_thumbnails (img : image) : Prop :=
  (18 <= fst (shape img))%Z /\ (147 <= snd (shape img))%Z.

(** The globals assigned along a trace, in order. *)
Definition assignments (t : list event) : list gvar :=
  flat_map (fun e => match e with Assign g => [g] | Call _ => [] end) t.

(** A line reported as detected comes with the pixels it was fitted to
    ("if zero pixels are ever found for a line, that line's detected
    becomes false"). *)
Definition Line_consistent (l : Line) : Prop :=
  detected l = true -> nonempty_pixel_set l.

(** Both searches return consistent lines. *)
Definition locator_contract (E : environment) : Prop :=
  (forall img a b v,
      Line_consistent (fst (fst (get_fits_by_previous_fits E img a b v)))
      /\ Line_consistent (snd (fst (get_fits_by_previous_fits E img a b v))))
  /\ (forall img a b n v,
      Line_consistent (fst (fst (get_fits_by_sliding_windows E img a b n v)))
      /\ Line_consistent (snd (fst (get_fits_by_sliding_windows E img a b n v)))).

(** The condition under which the previous fits are searched around. *)
Definition warm (keep_state : bool) (s : session) : Prop :=
  (0 < processed_frames s)%Z /\ keep_state = true
  /\ detected (line_lt s) = true /\ detected (line_rt s) = true.

(** The test [process_pipeline] makes before it searches. *)
Definition warmb (keep_state : bool) (s : session) : bool :=
  (0 <? processed_frames s)%Z && keep_state
  && detected (line_lt s) && detected (line_rt s).

(** The bird's-eye view handed to the search. *)
Definition birdeye_of (E : environment) (frame : image) : image :=
  fst (fst (birdeye E (binarize E (undistort E frame (mtx E) (dist E) false)
                         false) false)).

(** ** Example lines *)

(** Two detected lines whose bottom pixels (y above 0.95 * 710) have mean
    x 320 and 960: symmetric about the centre of a 1280-pixel frame. *)
Definition example_left : Line :=
  mkLine 10 true [] [310; 315; 325] [100; 700; 710] 1000.
Definition example_right : Line :=
  mkLine 10 true [] [950; 955; 965] [100; 700; 710] 1200.

(** The same two lines moved 10 pixels to the left. *)
Definition example_left_moved : Line :=
  mkLine 10 true [] [300; 305; 315] [100; 700; 710] 1000.
Definition example_right_moved : Line :=
  mkLine 10 true [] [940; 945; 955] [100; 700; 710] 1200.

(** A session before any frame was processed. *)
Definition initial_session : session :=
  mkSession (new_Line 10) (new_Line 10) 0%Z.


(** The trace of a frame up to and including the assignment of the lines. *)
Definition trace_until_lines (keep_state : bool) (s : session) : list event :=
  [Call Undistort; Call Binarize; Call Birdeye;
   Call (if warmb keep_state s then GetFitsByPreviousFits
         else GetFitsBySlidingWindows);
   Assign G_line_lt; Assign G_line_rt].

(** What the search that [process_pipeline] selects returns. *)
Definition located (E : environment) (frame : image) (keep_state : bool)
    (s : session) : Line * Line * image :=
  if warmb keep_state s
  then get_fits_by_previous_fits E (birdeye_of E frame) (line_lt s) (line_rt s) false
  else get_fits_by_sliding_windows E (birdeye_of E frame) (line_lt s) (line_rt s)
         9 false.

(** An environment to run the pipeline in: the image collaborators hand
    their input on, the sliding-window search finds the example lines and
    the search around previous fits finds them moved. *)
Definition example_environment : environment :=
  {| calib := unit;
     transform := unit;
     mtx := tt;
     dist := tt;
     xm_per_pix := 37 # 7000;
     undistort := fun frame _ _ _ => frame;
     binarize := fun img _ => img;
     birdeye := fun img _ => (img, tt, tt);
     get_fits_by_previous_fits := fun img _ _ _ =>
       (example_left_moved, example_right_moved, img);
     get_fits_by_sliding_windows := fun img _ _ _ _ =>
       (example_left, example_right, img);
     draw_back_onto_the_road := fun img _ _ _ _ => img |}.

Definition example_frame : image := Array 720 1280 0.

(** A frame two columns too narrow for the third thumbnail. *)
Definition example_narrow_frame : image := Array 720 145 0.


(** The slice assignments made to an array since it was created, oldest
    first: target rows, target columns, assigned image. *)
Fixpoint pasted (img : image) : list ((Z * Z) * (Z * Z) * image) :=
  match img with
  | SetRegion dst rows cols src => pasted dst ++ [(rows, cols, src)]
  | PutText i _ _ _ _ _ _ _ => pasted i
  | Rectangle i _ _ _ _ => pasted i
  | Array _ _ _ | AddWeighted _ _ _ _ _ | Resize _ _ | Dstack _ _ _
  | Scale _ _ => []
  end.

(** The intermediate images of a frame. *)
Definition undistorted_of (E : environment) (frame : image) : image :=
  undistort E frame (mtx E) (dist E) false.
Definition binary_of (E : environment) (frame : image) : image :=
  binarize E (undistorted_of E frame) false.
Definition inverse_of (E : environment) (frame : image) : transform E :=
  snd (birdeye E (binary_of E frame) false).

(** The frame [draw_back_onto_the_road] hands to the stitching, and what
    the stitching makes of it for a given offset. *)
Definition drawn_of (E : environment) (frame : image) (keep_state : bool)
    (s : session) : image :=
  draw_back_onto_the_road E (undistorted_of E frame) (inverse_of E frame)
    (fst (fst (located E frame keep_state s)))
    (snd (fst (located E frame keep_state s))) keep_state.
Definition stitched_of (E : environment) (frame : image) (keep_state : bool)
    (s : session) (off : num) : outcome image :=
  result_of
    (prepare_out_blend_frame (drawn_of E frame keep_state s)
       (binary_of E frame) (birdeye_of E frame)
       (snd (located E frame keep_state s))
       (fst (fst (located E frame keep_state s)))
       (snd (fst (located E frame keep_state s))) off
       (mkSession (fst (fst (located E frame keep_state s)))
                  (snd (fst (located E frame keep_state s)))
                  (processed_frames s))).

(** The loop of the last cell over the test images: for each frame read,
    [blend = process_pipeline(frame, keep_state=False)], the blends being
    what is written out. *)
Fixpoint process_images (E : environment) (frames : list image)
  : M (list image) :=
  match frames with
  | [] => ret []
  | frame :: rest =>
      blend <- process_pipeline E frame false ;;
      blends <- process_images E rest ;;
      ret (blend :: blends)
  end.

(** [process_pipeline] called once per frame, in order, with the same
    [keep_state]. *)
Fixpoint process_each (E : environment) (keep_state : bool)
    (frames : list image) : M (list image) :=
  match frames with
  | [] => ret []
  | frame :: rest =>
      blend <- process_pipeline E frame keep_state ;;
      blends <- process_each E keep_state rest ;;
      ret (blend :: blends)
  end.

(** The searches called along a trace, in order. *)
Definition searches (t : list event) : list callee :=
  flat_map (fun e => match e with
                     | Call GetFitsByPreviousFits => [GetFitsByPreviousFits]
                     | Call GetFitsBySlidingWindows => [GetFitsBySlidingWindows]
                     | _ => []
                     end) t.

(** Both searches always report both lines as detected. *)
Definition always_detects (E : environment) : Prop :=
  (forall img a b v,
      detected (fst (fst (get_fits_by_previous_fits E img a b v))) = true
      /\ detected (snd (fst (get_fits_by_previous_fits E img a b v))) = true)
  /\ (forall img a b n v,
      detected (fst (fst (get_fits_by_sliding_windows E img a b n v))) = true
      /\ detected (snd (fst (get_fits_by_sliding_windows E img a b n v))) = true).

(** Every collaborator returns an image of the size of the one it is
    given. *)
Definition shape_contract (E : environment) : Prop :=
  (forall f m d v, shape (undistort E f m d v) = shape f)
  /\ (forall i v, shape (binarize E i v) = shape i)
  /\ (forall i v, shape (fst (fst (birdeye E i v))) = shape i)
  /\ (forall i a b v,
         shape (snd (get_fits_by_previous_fits E i a b v)) = shape i)
  /\ (forall i a b n v,
         shape (snd (get_fits_by_sliding_windows E i a b n v)) = shape i)
  /\ (forall i t a b k,
         shape (draw_back_onto_the_road E i t a b k) = shape i).

(** The session of the notebook's second cell: two fresh lines, no frame
    processed. *)
Definition notebook_session (time_window : nat) : session :=
  mkSession (new_Line time_window) (new_Line time_window) 0%Z.

(** Lines flagged as detected whose pixel arrays are empty, of different
    lengths, or all in the top row. *)
Definition example_no_pixels : Line := mkLine 10 true [] [] [] 1000.
Definition example_mismatched : Line := mkLine 10 true [] [310; 315] [700] 1000.
Definition example_top_row : Line := mkLine 10 true [] [310; 315] [0; 0] 1000.

(** The left example line with its far pixel (row 100) moved. *)
Definition example_left_far_moved : Line :=
  mkLine 10 true [] [0; 315; 325] [100; 700; 710] 1000.

(** An environment whose sliding-window search reports a line as detected
    without any pixel. *)
Definition example_faulty_environment : environment :=
  {| calib := unit;
     transform := unit;
     mtx := tt;
     dist := tt;
     xm_per_pix := 37 # 7000;
     undistort := fun frame _ _ _ => frame;
     binarize := fun img _ => img;
     birdeye := fun img _ => (img, tt, tt);
     get_fits_by_previous_fits := fun img _ _ _ =>
       (example_left_moved, example_right_moved, img);
     get_fits_by_sliding_windows := fun img _ _ _ _ =>
       (example_no_pixels, example_right, img);
     draw_back_onto_the_road := fun img _ _ _ _ => img |}.

(** An environment whose searches lose the left line. *)
Definition example_blind_environment : environment :=
  {| calib := unit;
     transform := unit;
     mtx := tt;
     dist := tt;
     xm_per_pix := 37 # 7000;
     undistort := fun frame _ _ _ => frame;
     binarize := fun img _ => img;
     birdeye := fun img _ => (img, tt, tt);
     get_fits_by_previous_fits := fun img a b _ =>
       (mark_undetected a, example_right_moved, img);
     get_fits_by_sliding_windows := fun img a b _ _ =>
       (mark_undetected a, example_right, img);
     draw_back_onto_the_road := fun img _ _ _ _ => img |}.

(** * Properties *)


(** C1.  If either line's [detected] flag is false,
    [compute_offset_from_center] returns the sentinel -1 and raises nothing
    (whatever the pixel arrays, the frame width and the session are); the
    branch that computes an offset is taken exactly when both flags are
    true. *)
Theorem offset_sentinel_when_undetected :
  forall (xm_per_pix : Q) (lline rline : Line) (frame_width : Q) (s : session),
    (detected lline = false \/ detected rline = false ->
     compute_offset_from_center xm_per_pix lline rline frame_width s
       = (Returns (Fin (-1)), s, []))
    /\ (offset_branch_of lline rline = ComputedOffset <->
        detected lline = true /\ detected rline = true).
Proof.
  intros xm lline rline w s. unfold compute_offset_from_center, offset_branch_of.
  destruct (detected lline), (detected rline); simpl; split;
    try (intros [H | H]; discriminate H);
    try (intros _; reflexivity);
    split; try (intros [H1 H2]); try discriminate; auto.
Qed.


(** ** Lemmas on the numpy operations *)

Lemma Qmax_cases (a b : Q) : (Qmax a b = a /\ b <= a) \/ (Qmax a b = b /\ a <= b).
Proof.
  unfold Qmax. destruct (Qle_bool a b) eqn:E.
  - right. split; [reflexivity | now apply Qle_bool_iff].
  - left. split; [reflexivity |].
    apply Qlt_le_weak, Qnot_le_lt. intros H. apply Qle_bool_iff in H. congruence.
Qed.

Lemma fold_Qmax_spec (ys : list Q) : forall y0,
  let m := fold_left Qmax ys y0 in
  In m (y0 :: ys) /\ forall y, In y (y0 :: ys) -> y <= m.
Proof.
  induction ys as [| y ys IH]; intros y0; simpl.
  - split; [now left |]. intros y [-> | []]. apply Qle_refl.
  - destruct (IH (Qmax y0 y)) as [Hin Hle]. simpl in Hin, Hle. split.
    + destruct Hin as [Hin | Hin]; [| now right; right].
      destruct (Qmax_cases y0 y) as [[E _] | [E _]]; rewrite E in Hin |- *; auto.
    + intros z Hz.
      assert (Hm : Qmax y0 y <= fold_left Qmax ys (Qmax y0 y)) by (apply Hle; now left).
      destruct Hz as [<- | [<- | Hz]].
      * destruct (Qmax_cases y0 y) as [[E _] | [E H]]; rewrite E in Hm |- *; auto.
        eapply Qle_trans; eauto.
      * destruct (Qmax_cases y0 y) as [[E H] | [E _]]; rewrite E in Hm |- *; auto.
        eapply Qle_trans; eauto.
      * apply Hle. now right.
Qed.

Lemma np_max_spec (line : Line) :
  all_y line <> [] -> exists m, np_max (all_y line) = Returns m /\ is_max_y line m.
Proof.
  unfold is_max_y, np_max. destruct (all_y line) as [| y ys]; [congruence |].
  intros _. exists (fold_left Qmax ys y). split; [reflexivity |].
  apply (fold_Qmax_spec ys y).
Qed.

Lemma select_mask_filter (f : Q -> bool) : forall xs ys,
  select_mask xs (map f ys)
  = map fst (filter (fun p => f (snd p)) (combine xs ys)).
Proof.
  induction xs as [| x xs IH]; intros [| y ys]; simpl; try reflexivity.
  rewrite IH. destruct (f y); reflexivity.
Qed.

Lemma bottom_pixels_spec (line : Line) :
  nonempty_pixel_set line ->
  exists m, is_max_y line m /\
    bottom_pixels line
    = Returns (map fst (filter (fun p => Qgtb (snd p) ((95 # 100) * m)) (pixels line))).
Proof.
  intros [Hne Hlen]. destruct (np_max_spec line Hne) as (m & Hm & Hmax).
  exists m. split; [exact Hmax |].
  unfold bottom_pixels, np_index_mask, np_greater, pixels. rewrite Hm.
  rewrite length_map, Hlen, Nat.eqb_refl.
  now rewrite (select_mask_filter (fun y => Qgtb y ((95 # 100) * m))).
Qed.

Lemma line_bottom_spec (line : Line) :
  nonempty_pixel_set line ->
  exists m, is_max_y line m /\ line_bottom line = Returns (spec_bottom_x line m).
Proof.
  intros H. destruct (bottom_pixels_spec line H) as (m & Hmax & E).
  exists m. split; [exact Hmax |]. unfold line_bottom, spec_bottom_x. now rewrite E.
Qed.

(** What the computing branch returns once both bottoms are known. *)
Lemma offset_of_bottoms (xm_per_pix : Q) (lline rline : Line) (w : Q)
    (s : session) (bl br : num) :
  detected lline = true -> detected rline = true ->
  line_bottom lline = Returns bl -> line_bottom rline = Returns br ->
  compute_offset_from_center xm_per_pix lline rline w s
  = (Returns (spec_offset xm_per_pix bl br w), s, []).
Proof.
  intros Dl Dr El Er.
  unfold compute_offset_from_center, offset_branch_of, bind, lift, ret.
  rewrite Dl, Dr, El, Er. reflexivity.
Qed.

Lemma np_mean_nonempty (xs : list Q) :
  xs <> [] -> exists q, np_mean xs = Fin q.
Proof. destruct xs; [congruence | intros _; eexists; reflexivity]. Qed.

(** C3.  With both lines detected and non-empty pixel sets,
    [compute_offset_from_center] returns (raising nothing, session
    untouched) xm_per_pix * |(left_bottom_x + (right_bottom_x -
    left_bottom_x)/2) - frame_width/2|, each line's bottom x being the mean
    of its x-coordinates over the pixels whose y strictly exceeds 95% of
    the line's maximum y.  (Where no pixel passes that test, i.e. the
    maximum y is not positive, the mean and hence the result is nan on
    both sides.) *)
Theorem offset_formula :
  forall (xm_per_pix : Q) (lline rline : Line) (frame_width : Q) (s : session),
    detected lline = true -> detected rline = true ->
    nonempty_pixel_set lline -> nonempty_pixel_set rline ->
    exists ml mr,
      is_max_y lline ml /\ is_max_y rline mr /\
      compute_offset_from_center xm_per_pix lline rline frame_width s
      = (Returns (spec_offset xm_per_pix (spec_bottom_x lline ml)
                    (spec_bottom_x rline mr) frame_width), s, [])
      /\ forall l r, spec_bottom_x lline ml = Fin l ->
                     spec_bottom_x rline mr = Fin r ->
           compute_offset_from_center xm_per_pix lline rline frame_width s
           = (Returns (Fin (xm_per_pix
                            * Qabs ((l + (r - l) / 2) - frame_width / 2))), s, []).
Proof.
  intros xm lline rline w s Dl Dr Hl Hr.
  destruct (line_bottom_spec lline Hl) as (ml & Hml & El).
  destruct (line_bottom_spec rline Hr) as (mr & Hmr & Er).
  exists ml, mr. split; [exact Hml |]. split; [exact Hmr |].
  pose proof (offset_of_bottoms xm lline rline w s _ _ Dl Dr El Er) as E.
  split; [exact E |].
  intros l r Fl Fr. rewrite E, Fl, Fr. reflexivity.
Qed.


Lemma offset_formula_witness :
  exists ml mr,
    is_max_y example_left ml /\ is_max_y example_right mr /\
    compute_offset_from_center (37 # 7000) example_left example_right 1280
      initial_session
    = (Returns (spec_offset (37 # 7000) (spec_bottom_x example_left ml)
                  (spec_bottom_x example_right mr) 1280), initial_session, [])
    /\ forall l r, spec_bottom_x example_left ml = Fin l ->
                   spec_bottom_x example_right mr = Fin r ->
         compute_offset_from_center (37 # 7000) example_left example_right 1280
           initial_session
         = (Returns (Fin ((37 # 7000) * Qabs ((l + (r - l) / 2) - 1280 / 2))),
            initial_session, []).
Proof.
  apply (offset_formula (37 # 7000) example_left example_right 1280 initial_session).
  - reflexivity.
  - reflexivity.
  - split; [discriminate | reflexivity].
  - split; [discriminate | reflexivity].
Defined.

(** ** Symmetric and shifted lanes *)

(** C4 as stated fails for a shift to the left: from the symmetric lines
    (bottoms 320 and 960, frame width 1280) moved by d = -10 pixels the
    function returns 37/700, not xm_per_pix * d = -37/700. *)
Lemma offset_shift_left_counterexample :
  exists l r l' r' v',
    line_bottom example_left = Returns (Fin l) /\
    line_bottom example_right = Returns (Fin r) /\
    l + r == 1280 /\
    line_bottom example_left_moved = Returns (Fin l') /\
    line_bottom example_right_moved = Returns (Fin r') /\
    l' == l + -10 /\ r' == r + -10 /\
    compute_offset_from_center (37 # 7000) example_left_moved
      example_right_moved 1280 initial_session
    = (Returns (Fin v'), initial_session, []) /\
    v' == 37 # 700 /\
    ~ v' == (37 # 7000) * -10.
Proof.
  do 5 eexists.
  repeat (split; [reflexivity || (vm_compute; reflexivity) |]).
  vm_compute. discriminate.
Qed.

Lemma Qabs_bound (x b : Q) : - b <= x -> x <= b -> Qabs x <= b.
Proof. intros H1 H2. apply Qabs_Qle_condition. now split. Qed.

Lemma Qabs_bounded (x b : Q) : Qabs x <= b -> - b <= x /\ x <= b.
Proof. apply Qabs_Qle_condition. Qed.

Lemma Qabs_self (x : Q) : - Qabs x <= x /\ x <= Qabs x.
Proof. apply Qabs_Qle_condition, Qle_refl. Qed.

Lemma Qabs_Qabs_close (x y : Q) : Qabs (Qabs x - Qabs y) <= Qabs (x - y).
Proof.
  apply Qabs_bound.
  - pose proof (Qabs_triangle_reverse y x) as H.
    assert (E : Qabs (y - x) == Qabs (x - y)).
    { rewrite <- (Qabs_opp (y - x)). apply Qabs_wd. ring. }
    rewrite E in H. lra.
  - apply Qabs_triangle_reverse.
Qed.

Section RoundingError.

Variable rnd : Q -> Q.
Variable u : Q.
Hypothesis Hrnd : rounds_within u rnd.

(** Rounding a value of magnitude at most [k * S] moves it by at most
    [k * (u * S)]. *)
Lemma rnd_step (x k S : Q) :
  Qabs x <= k * S -> Qabs (rnd x - x) <= k * (u * S).
Proof.
  destruct Hrnd as (Hu0 & _ & Herr). intros Hx.
  eapply Qle_trans; [apply Herr |].
  assert (E : k * (u * S) == u * (k * S)) by ring. rewrite E.
  rewrite (Qmult_comm u (Qabs x)), (Qmult_comm u (k * S)).
  now apply Qmult_le_compat_r.
Qed.

(** The rounded pixel offset against the exact one, for any [S] that
    bounds the magnitudes and any [US] that bounds the rounding errors. *)
Lemma fl_pixel_offset_error (l r w S US : Q) :
  Qabs l + Qabs r + Qabs w <= S -> 0 <= US -> US <= S ->
  (forall x k, Qabs x <= k * S -> Qabs (rnd x - x) <= k * US) ->
  let d := rnd (rnd (l + rnd (rnd (r - l) / 2)) - rnd (w / 2)) in
  Qabs (d - (l + (r - l) / 2 - w / 2)) <= (25 # 2) * US
  /\ Qabs d <= 14 * S.
Proof.
  intros HS HUS0 HUS1 Hstep.
  destruct (Qabs_self l) as [Hl1 Hl2]. destruct (Qabs_self r) as [Hr1 Hr2].
  destruct (Qabs_self w) as [Hw1 Hw2].
  pose proof (Qabs_nonneg l) as Nl. pose proof (Qabs_nonneg r) as Nr.
  pose proof (Qabs_nonneg w) as Nw.
  assert (Eh : forall x, x / 2 == (1 # 2) * x) by (intros; field).
  generalize dependent (Qabs l). generalize dependent (Qabs r).
  generalize dependent (Qabs w). intros AW Hw1 Hw2 Nw AR Hr1 Hr2 Nr AL HS Hl1 Hl2 Nl.
  cbv zeta.
  (* a = rnd (r - l) *)
  assert (Ha : Qabs (rnd (r - l) - (r - l)) <= 1 * US)
    by (apply Hstep, Qabs_bound; lra).
  remember (rnd (r - l)) as a eqn:Ea. clear Ea.
  apply Qabs_bounded in Ha. destruct Ha as [Ha1 Ha2].
  (* b = rnd (a / 2) *)
  assert (Hb : Qabs (rnd (a / 2) - a / 2) <= 1 * US)
    by (apply Hstep, Qabs_bound; rewrite Eh; lra).
  remember (rnd (a / 2)) as b eqn:Eb. clear Eb.
  apply Qabs_bounded in Hb. rewrite Eh in Hb. destruct Hb as [Hb1 Hb2].
  (* c = rnd (l + b) *)
  assert (Hc : Qabs (rnd (l + b) - (l + b)) <= 3 * US)
    by (apply Hstep, Qabs_bound; lra).
  remember (rnd (l + b)) as c eqn:Ec. clear Ec.
  apply Qabs_bounded in Hc. destruct Hc as [Hc1 Hc2].
  (* m = rnd (w / 2) *)
  assert (Hm : Qabs (rnd (w / 2) - w / 2) <= 1 * US)
    by (apply Hstep, Qabs_bound; rewrite Eh; lra).
  remember (rnd (w / 2)) as m eqn:Em. clear Em.
  apply Qabs_bounded in Hm. rewrite Eh in Hm. destruct Hm as [Hm1 Hm2].
  (* d = rnd (c - m) *)
  assert (Hd : Qabs (rnd (c - m) - (c - m)) <= 7 * US)
    by (apply Hstep, Qabs_bound; lra).
  remember (rnd (c - m)) as d eqn:Ed. clear Ed.
  apply Qabs_bounded in Hd. destruct Hd as [Hd1 Hd2].
  split; apply Qabs_bound; rewrite ?Eh; lra.
Qed.

(** The rounded offset is within [27 u |xm| (|l| + |r| + |w|)] of the
    exact one. *)
Lemma fl_offset_error (xm l r w : Q) :
  Qabs (fl_offset rnd xm l r w - xm * Qabs (l + (r - l) / 2 - w / 2))
  <= 27 * u * Qabs xm * (Qabs l + Qabs r + Qabs w).
Proof.
  destruct Hrnd as (Hu0 & Hu1 & _).
  unfold fl_offset.
  pose proof (Qabs_nonneg l) as Nl. pose proof (Qabs_nonneg r) as Nr.
  pose proof (Qabs_nonneg w) as Nw.
  assert (HS : 0 <= Qabs l + Qabs r + Qabs w) by lra.
  remember (Qabs l + Qabs r + Qabs w) as S eqn:ES.
  assert (HUS0 : 0 <= u * S) by now apply Qmult_le_0_compat.
  assert (HUS1 : u * S <= S).
  { rewrite <- (Qmult_1_l S) at 2. now apply Qmult_le_compat_r. }
  destruct (fl_pixel_offset_error l r w S (u * S)) as [HdE Hdm];
    [rewrite ES; apply Qle_refl | exact HUS0 | exact HUS1
     | intros x k; apply rnd_step |].
  cbv zeta in HdE, Hdm.
  remember (rnd (rnd (l + rnd (rnd (r - l) / 2)) - rnd (w / 2))) as d eqn:Ed.
  clear Ed.
  remember (l + (r - l) / 2 - w / 2) as E eqn:EE. clear EE.
  assert (Hp : Qabs (Qabs d - Qabs E) <= (25 # 2) * (u * S))
    by (eapply Qle_trans; [apply Qabs_Qabs_close | exact HdE]).
  assert (Hv : Qabs (rnd (xm * Qabs d) - xm * Qabs d)
               <= 14 * (u * (Qabs xm * S))).
  { apply rnd_step. rewrite Qabs_Qmult, (Qabs_pos (Qabs d)) by apply Qabs_nonneg.
    assert (E1 : 14 * (Qabs xm * S) == Qabs xm * (14 * S)) by ring. rewrite E1.
    rewrite (Qmult_comm (Qabs xm) (Qabs d)), (Qmult_comm (Qabs xm) (14 * S)).
    apply Qmult_le_compat_r; [exact Hdm | apply Qabs_nonneg]. }
  assert (Hx : Qabs (xm * Qabs d - xm * Qabs E)
               <= (25 # 2) * (u * (Qabs xm * S))).
  { assert (E1 : xm * Qabs d - xm * Qabs E == xm * (Qabs d - Qabs E)) by ring.
    rewrite E1, Qabs_Qmult.
    assert (E2 : (25 # 2) * (u * (Qabs xm * S))
                 == Qabs xm * ((25 # 2) * (u * S))) by ring.
    rewrite E2.
    rewrite (Qmult_comm (Qabs xm) _),
            (Qmult_comm (Qabs xm) ((25 # 2) * (u * S))).
    apply Qmult_le_compat_r; [exact Hp | apply Qabs_nonneg]. }
  assert (HT : 0 <= u * (Qabs xm * S)).
  { apply Qmult_le_0_compat; [exact Hu0 |].
    apply Qmult_le_0_compat; [apply Qabs_nonneg | exact HS]. }
  apply Qabs_bounded in Hv. apply Qabs_bounded in Hx.
  destruct Hv as [Hv1 Hv2]. destruct Hx as [Hx1 Hx2].
  assert (E3 : 27 * u * Qabs xm * S == 27 * (u * (Qabs xm * S))) by ring.
  rewrite E3.
  remember (u * (Qabs xm * S)) as T eqn:ET. clear ET.
  remember (rnd (xm * Qabs d)) as v eqn:Ev. clear Ev.
  remember (xm * Qabs d) as y eqn:Ey. clear Ey.
  remember (xm * Qabs E) as z eqn:Ez. clear Ez.
  apply Qabs_bound; lra.
Qed.

End RoundingError.

(** The exact function is the rounded one without rounding. *)
Lemma unrounded_offset (xm : Q) (lline rline : Line) (w : Q) :
  compute_offset_from_center_fl (fun x => x) np_mean xm lline rline w
  = compute_offset_from_center xm lline rline w.
Proof. reflexivity. Qed.

Lemma offset_of_bottoms_fl (rnd : Q -> Q) (fl_mean : list Q -> num) (xm : Q)
    (lline rline : Line) (w : Q) (s : session) (l r : Q) :
  detected lline = true -> detected rline = true ->
  line_bottom_fl rnd fl_mean lline = Returns (Fin l) ->
  line_bottom_fl rnd fl_mean rline = Returns (Fin r) ->
  compute_offset_from_center_fl rnd fl_mean xm lline rline w s
  = (Returns (Fin (fl_offset rnd xm l r w)), s, []).
Proof.
  intros Dl Dr El Er.
  unfold compute_offset_from_center_fl, offset_branch_of, bind, lift, ret.
  rewrite Dl, Dr, El, Er. reflexivity.
Qed.

(** A value within [tol] of [xm * |e|], where [e] is within [delta] of
    [d], is within [tol + |xm| * delta] of [xm * |d|]. *)
Lemma offset_near_shift (v xm e d tol delta : Q) :
  Qabs (v - xm * Qabs e) <= tol -> Qabs (e - d) <= delta ->
  Qabs (v - xm * Qabs d) <= tol + Qabs xm * delta.
Proof.
  intros Hv He.
  assert (Hp : Qabs (Qabs e - Qabs d) <= delta)
    by (eapply Qle_trans; [apply Qabs_Qabs_close | exact He]).
  assert (Hx : Qabs (xm * Qabs e - xm * Qabs d) <= Qabs xm * delta).
  { assert (E1 : xm * Qabs e - xm * Qabs d == xm * (Qabs e - Qabs d)) by ring.
    rewrite E1, Qabs_Qmult.
    rewrite (Qmult_comm (Qabs xm) _), (Qmult_comm (Qabs xm) delta).
    apply Qmult_le_compat_r; [exact Hp | apply Qabs_nonneg]. }
  apply Qabs_bounded in Hv. apply Qabs_bounded in Hx.
  destruct Hv as [Hv1 Hv2]. destruct Hx as [Hx1 Hx2].
  remember (Qabs xm * delta) as T eqn:ET. clear ET.
  remember (xm * Qabs e) as y eqn:Ey. clear Ey.
  remember (xm * Qabs d) as z eqn:Ez. clear Ez.
  apply Qabs_bound; lra.
Qed.

(** C4, as amended.  In arithmetic that rounds every operation with
    relative error at most u (float64 in its normal range: u = 2^-53), for
    detected lines whose bottom x-positions l and r, as the function
    computes them, are equidistant from the frame centre
    (l + r = frame_width), [compute_offset_from_center] returns 0 within
    floating tolerance; and for detected lines whose bottom x-positions
    are those of such a symmetric pair moved by d, it returns
    xm_per_pix * |d| within floating tolerance: the magnitude of the
    shift, whatever its direction.  The tolerance is 27 u |xm_per_pix|
    times the sum of the magnitudes of the two bottoms and the frame
    width; in general the value returned is within that tolerance of
    xm_per_pix * |(l + (r - l)/2) - frame_width/2|.  When the two means
    are themselves only within delta of the positions l0 + d and r0 + d
    of a shifted symmetric pair (the means are rounded as well), the
    tolerance grows by |xm_per_pix| * delta. *)
Theorem offset_symmetric_and_shifted :
  forall (rnd : Q -> Q) (fl_mean : list Q -> num) (u xm_per_pix : Q)
         (lline rline : Line) (l r frame_width : Q) (s : session),
    rounds_within u rnd ->
    detected lline = true -> detected rline = true ->
    line_bottom_fl rnd fl_mean lline = Returns (Fin l) ->
    line_bottom_fl rnd fl_mean rline = Returns (Fin r) ->
    let tolerance :=
      27 * u * Qabs xm_per_pix * (Qabs l + Qabs r + Qabs frame_width) in
    exists v,
      compute_offset_from_center_fl rnd fl_mean xm_per_pix lline rline
        frame_width s = (Returns (Fin v), s, [])
      /\ Qabs (v - xm_per_pix * Qabs (l + (r - l) / 2 - frame_width / 2))
         <= tolerance
      /\ (l + r == frame_width -> Qabs v <= tolerance)
      /\ (forall l0 r0 d : Q,
             l0 + r0 == frame_width -> l == l0 + d -> r == r0 + d ->
             Qabs (v - xm_per_pix * Qabs d) <= tolerance)
      /\ (forall l0 r0 d delta : Q,
             l0 + r0 == frame_width ->
             Qabs (l - (l0 + d)) <= delta -> Qabs (r - (r0 + d)) <= delta ->
             Qabs (v - xm_per_pix * Qabs d)
             <= tolerance + Qabs xm_per_pix * delta).
Proof.
  intros rnd fl_mean u xm lline rline l r w s Hrnd Dl Dr El Er tolerance.
  exists (fl_offset rnd xm l r w). split.
  { apply (offset_of_bottoms_fl rnd fl_mean xm lline rline w s l r Dl Dr El Er). }
  pose proof (fl_offset_error rnd u Hrnd xm l r w) as H. fold tolerance in H.
  split; [exact H |]. split; [| split].
  - intros Hsym.
    assert (E : l + (r - l) / 2 - w / 2 == 0) by (rewrite <- Hsym; field).
    assert (E0 : fl_offset rnd xm l r w
                 - xm * Qabs (l + (r - l) / 2 - w / 2)
                 == fl_offset rnd xm l r w).
    { rewrite E. change (Qabs 0) with 0. ring. }
    now rewrite E0 in H.
  - intros l0 r0 d Hsym Hl Hr.
    assert (E : l + (r - l) / 2 - w / 2 == d)
      by (rewrite Hl, Hr, <- Hsym; field).
    now rewrite E in H.
  - intros l0 r0 d delta Hsym Hl Hr.
    apply (offset_near_shift _ xm (l + (r - l) / 2 - w / 2) d tolerance delta H).
    assert (E : l + (r - l) / 2 - w / 2 - d
                == (1 # 2) * (l - (l0 + d)) + (1 # 2) * (r - (r0 + d)))
      by (rewrite <- Hsym; field).
    rewrite E.
    apply Qabs_bounded in Hl. apply Qabs_bounded in Hr.
    destruct Hl as [Hl1 Hl2]. destruct Hr as [Hr1 Hr2].
    apply Qabs_bound; lra.
Qed.

Lemma example_rounding_within :
  rounds_within u_float64 (example_rounding u_float64).
Proof.
  split; [discriminate |]. split; [discriminate |].
  intros x. unfold example_rounding.
  assert (E : x * (1 + u_float64) - x == u_float64 * x) by ring.
  rewrite E, Qabs_Qmult. apply Qmult_le_compat_r; [| apply Qabs_nonneg].
  rewrite Qabs_pos; [apply Qle_refl | discriminate].
Qed.

Lemma offset_symmetric_and_shifted_witness :
  (exists v,
      compute_offset_from_center_fl (example_rounding u_float64) np_mean
        (37 # 7000) example_left example_right 1280 initial_session
      = (Returns (Fin v), initial_session, [])
      /\ Qabs v <= 27 * u_float64 * Qabs (37 # 7000)
                   * (Qabs (640 # 2) + Qabs (1920 # 2) + Qabs 1280))
  /\ (exists v',
      compute_offset_from_center_fl (example_rounding u_float64) np_mean
        (37 # 7000) example_left_moved example_right_moved 1280
        initial_session
      = (Returns (Fin v'), initial_session, [])
      /\ Qabs (v' - (37 # 7000) * Qabs (-10))
         <= 27 * u_float64 * Qabs (37 # 7000)
            * (Qabs (620 # 2) + Qabs (1900 # 2) + Qabs 1280)
      /\ Qabs (v' - (37 # 7000) * Qabs (-(99 # 10)))
         <= 27 * u_float64 * Qabs (37 # 7000)
            * (Qabs (620 # 2) + Qabs (1900 # 2) + Qabs 1280)
            + Qabs (37 # 7000) * (1 # 10)).
Proof.
  split.
  - destruct (offset_symmetric_and_shifted (example_rounding u_float64) np_mean
                u_float64 (37 # 7000) example_left example_right
                (640 # 2) (1920 # 2) 1280 initial_session
                example_rounding_within eq_refl eq_refl eq_refl eq_refl)
      as (v & Hv & _ & Hsym & _).
    exists v. split; [exact Hv |]. apply Hsym. vm_compute. reflexivity.
  - destruct (offset_symmetric_and_shifted (example_rounding u_float64) np_mean
                u_float64 (37 # 7000) example_left_moved example_right_moved
                (620 # 2) (1900 # 2) 1280 initial_session
                example_rounding_within eq_refl eq_refl eq_refl eq_refl)
      as (v & Hv & _ & _ & Hshift & Hnear).
    exists v. split; [exact Hv |]. split.
    + apply (Hshift 320 960 (-10)); vm_compute; reflexivity.
    + apply (Hnear 320 960 (-(99 # 10)) (1 # 10)); vm_compute;
        try reflexivity; discriminate.
Defined.

(** ** Sums *)

Lemma fold_Qplus_compat (xs : list Q) : forall a b,
  a == b -> fold_left Qplus xs a == fold_left Qplus xs b.
Proof.
  induction xs as [| x xs IH]; intros a b H; simpl; [exact H |].
  apply IH. now rewrite H.
Qed.

Lemma fold_Qplus_acc (xs : list Q) : forall a b,
  fold_left Qplus xs (a + b) == fold_left Qplus xs a + b.
Proof.
  induction xs as [| x xs IH]; intros a b; simpl; [reflexivity |].
  rewrite <- IH. apply fold_Qplus_compat. ring.
Qed.

(** ** Sign of the offset *)

Lemma line_bottom_of_selection (line : Line) (sel : list Q) :
  bottom_pixels line = Returns sel -> sel <> [] ->
  exists q, line_bottom line = Returns (Fin q).
Proof.
  intros E Hne. destruct (np_mean_nonempty sel Hne) as [q Hq].
  exists q. unfold line_bottom. now rewrite E, Hq.
Qed.

(** C10.  With both lines detected, non-empty bottom-pixel selections and a
    non-negative x-scale factor, [compute_offset_from_center] returns a
    finite non-negative value, hence never the sentinel -1. *)
Theorem offset_nonnegative :
  forall (xm_per_pix : Q) (lline rline : Line) (frame_width : Q) (s : session)
         (sel_l sel_r : list Q),
    detected lline = true -> detected rline = true ->
    bottom_pixels lline = Returns sel_l -> sel_l <> [] ->
    bottom_pixels rline = Returns sel_r -> sel_r <> [] ->
    0 <= xm_per_pix ->
    exists v,
      compute_offset_from_center xm_per_pix lline rline frame_width s
      = (Returns (Fin v), s, [])
      /\ 0 <= v /\ ~ v == -1.
Proof.
  intros xm lline rline w s sl sr Dl Dr El Nl Er Nr Hxm.
  destruct (line_bottom_of_selection lline sl El Nl) as [ql Bl].
  destruct (line_bottom_of_selection rline sr Er Nr) as [qr Br].
  eexists. split.
  - apply (offset_of_bottoms xm lline rline w s _ _ Dl Dr Bl Br).
  - assert (H : 0 <= xm * Qabs (ql + (qr - ql) / 2 - w / 2))
      by (apply Qmult_le_0_compat; [exact Hxm | apply Qabs_nonneg]).
    simpl. split; [exact H |].
    intros E. rewrite E in H. revert H. vm_compute. intros H. now apply H.
Qed.

Lemma offset_nonnegative_witness :
  exists v,
    compute_offset_from_center (37 # 7000) example_left_moved
      example_right_moved 1280 initial_session
    = (Returns (Fin v), initial_session, [])
    /\ 0 <= v /\ ~ v == -1.
Proof.
  eapply (offset_nonnegative (37 # 7000) example_left_moved example_right_moved
            1280 initial_session).
  - reflexivity.
  - reflexivity.
  - reflexivity.
  - discriminate.
  - reflexivity.
  - discriminate.
  - vm_compute. discriminate.
Defined.

(** ** Effects of the three functions *)

Lemma compute_offset_from_center_run (xm : Q) (lline rline : Line) (w : Q)
    (s : session) :
  exists o, compute_offset_from_center xm lline rline w s = (o, s, []).
Proof.
  unfold compute_offset_from_center, bind, lift, ret.
  destruct (offset_branch_of lline rline); [| eexists; reflexivity].
  destruct (line_bottom lline); [| eexists; reflexivity].
  destruct (line_bottom rline); eexists; reflexivity.
Qed.

Ltac step_outcomes :=
  unfold bind, lift, ret;
  repeat match goal with
         | |- context [match ?o with Returns _ => _ | Raises _ => _ end] =>
             destruct o
         | H : context [match ?o with Returns _ => _ | Raises _ => _ end] |- _ =>
             destruct o
         end.

Lemma prepare_out_blend_frame_run (blend_on_road img_binary img_birdeye
    img_fit : image) (lline rline : Line) (offset_meter : num) (s : session) :
  exists o,
    prepare_out_blend_frame blend_on_road img_binary img_birdeye img_fit
      lline rline offset_meter s = (o, s, []).
Proof.
  unfold prepare_out_blend_frame. destruct (shape blend_on_road) as [h w].
  step_outcomes; eexists; reflexivity.
Qed.

(** The frame [prepare_out_blend_frame] returns, when it returns one: the
    two texts drawn last, on an image of the size of the one given. *)
Lemma prepare_out_blend_frame_returned (blend_on_road img_binary img_birdeye
    img_fit : image) (lline rline : Line) (offset_meter : num) (s : session)
    (out : image) :
  result_of (prepare_out_blend_frame blend_on_road img_binary img_birdeye
               img_fit lline rline offset_meter s) = Returns out ->
  exists base,
    out = PutText
            (PutText base
               ("Curvature radius: "
                ++ format_02f (np_mean [curvature_meter lline;
                                        curvature_meter rline])
                ++ "m")%string
               (860, 60)%Z cv2_FONT_HERSHEY_SIMPLEX (9 # 10)
               (255, 255, 255)%Z 2 cv2_LINE_AA)
            ("Offset from center: " ++ format_02f offset_meter ++ "m")%string
            (860, 130)%Z cv2_FONT_HERSHEY_SIMPLEX (9 # 10)
            (255, 255, 255)%Z 2 cv2_LINE_AA
    /\ shape base = shape blend_on_road.
Proof.
  unfold prepare_out_blend_frame. destruct (shape blend_on_road) as [h w] eqn:Hs.
  unfold bind, lift, ret, np_assign_region.
  destruct (cv2_resize img_binary _) as [t1 | e]; [| discriminate].
  cbn [shape]. rewrite Hs.
  destruct (shape t1) as [h1 w1].
  destruct (_ && _); [| discriminate].
  destruct (cv2_resize img_birdeye _) as [t2 | e]; [| discriminate].
  cbn [shape]. rewrite Hs.
  destruct (shape t2) as [h2 w2].
  destruct (_ && _); [| discriminate].
  destruct (cv2_resize img_fit _) as [t3 | e]; [| discriminate].
  cbn [shape]. rewrite Hs.
  destruct (shape t3) as [h3 w3].
  destruct (_ && _); [| discriminate].
  unfold result_of. cbn [fst]. intros H. injection H as <-.
  eexists. split; [reflexivity |]. cbn [shape]. exact Hs.
Qed.

Lemma warmb_iff (keep_state : bool) (s : session) :
  warmb keep_state s = true <-> warm keep_state s.
Proof.
  unfold warmb, warm. rewrite !andb_true_iff, Z.ltb_lt. tauto.
Qed.

(** One frame, step by step.  The offset computation raises, after the
    lines were assigned; or the stitching raises, after the lane was drawn;
    or the call returns with the counter incremented. *)
Lemma process_pipeline_run (E : environment) (frame : image)
    (keep_state : bool) (s : session) :
  let new_lt := fst (fst (located E frame keep_state s)) in
  let new_rt := snd (fst (located E frame keep_state s)) in
  let s1 := mkSession new_lt new_rt (processed_frames s) in
  let w := inject_Z (snd (shape frame)) in
  (exists e,
      compute_offset_from_center (xm_per_pix E) new_lt new_rt w s1
      = (Raises e, s1, [])
      /\ process_pipeline E frame keep_state s
         = (Raises e, s1, trace_until_lines keep_state s))
  \/ (exists off e,
      compute_offset_from_center (xm_per_pix E) new_lt new_rt w s1
      = (Returns off, s1, [])
      /\ stitched_of E frame keep_state s off = Raises e
      /\ process_pipeline E frame keep_state s
         = (Raises e, s1,
            trace_until_lines keep_state s ++ [Call DrawBackOntoTheRoad]))
  \/ (exists off blend,
      compute_offset_from_center (xm_per_pix E) new_lt new_rt w s1
      = (Returns off, s1, [])
      /\ stitched_of E frame keep_state s off = Returns blend
      /\ process_pipeline E frame keep_state s
         = (Returns blend,
            mkSession new_lt new_rt (processed_frames s + 1),
            trace_until_lines keep_state s
            ++ [Call DrawBackOntoTheRoad; Assign G_processed_frames])).
Proof.
  cbv zeta.
  unfold stitched_of, drawn_of, process_pipeline, located, trace_until_lines,
    birdeye_of, inverse_of, binary_of, undistorted_of.
  unfold bind, call, get_global, set_line_lt, set_line_rt,
    set_processed_frames, ret.
  destruct (birdeye E _ false) as [[img_birdeye Mfwd] Minv]. cbn [fst snd].
  fold (warmb keep_state s).
  destruct (warmb keep_state s);
    [ destruct (get_fits_by_previous_fits E img_birdeye (line_lt s) (line_rt s)
                  false) as [[new_lt new_rt] img_fit]
    | destruct (get_fits_by_sliding_windows E img_birdeye (line_lt s) (line_rt s)
                  9 false) as [[new_lt new_rt] img_fit] ];
    cbn [fst snd line_lt line_rt processed_frames];
    destruct (compute_offset_from_center_run (xm_per_pix E) new_lt new_rt
                (inject_Z (snd (shape frame)))
                (mkSession new_lt new_rt (processed_frames s))) as [o Ho];
    rewrite Ho; destruct o as [off | e];
    try (left; exists e; split; reflexivity);
    right; cbn [fst snd line_lt line_rt processed_frames];
    match goal with
    | |- context [prepare_out_blend_frame ?a ?b ?c ?d ?l ?r ?o ?st] =>
        destruct (prepare_out_blend_frame_run a b c d l r o st) as [blend Hb];
        rewrite Hb
    end;
    (destruct blend as [blend | e];
     [ right; exists off, blend | left; exists off, e ]);
    unfold result_of; rewrite ?Hb; cbn [fst];
    repeat split; reflexivity.
Qed.

(** ** Which search runs *)

(** C2.  In every call of [process_pipeline] the search around the
    previous fits is run if and only if the frame counter is positive,
    [keep_state] is set and both lines are detected; otherwise, and only
    then, the sliding-window search is run; the lines the session holds
    afterwards are the ones that search returned.  In particular
    [keep_state = false] forces the sliding-window search. *)
Theorem search_selection :
  forall (E : environment) (frame : image) (keep_state : bool) (s : session),
    let r := process_pipeline E frame keep_state s in
    (In (Call GetFitsByPreviousFits) (trace_of r) <-> warm keep_state s)
    /\ (In (Call GetFitsBySlidingWindows) (trace_of r) <-> ~ warm keep_state s)
    /\ (warm keep_state s ->
        (line_lt (session_of r), line_rt (session_of r))
        = fst (get_fits_by_previous_fits E (birdeye_of E frame)
                 (line_lt s) (line_rt s) false))
    /\ (~ warm keep_state s ->
        (line_lt (session_of r), line_rt (session_of r))
        = fst (get_fits_by_sliding_windows E (birdeye_of E frame)
                 (line_lt s) (line_rt s) 9 false))
    /\ (keep_state = false ->
        In (Call GetFitsBySlidingWindows) (trace_of r)
        /\ ~ In (Call GetFitsByPreviousFits) (trace_of r)).
Proof.
  intros E frame keep_state s r.
  assert (Hr : (trace_of r = trace_until_lines keep_state s
                \/ trace_of r = trace_until_lines keep_state s
                                ++ [Call DrawBackOntoTheRoad]
                \/ trace_of r = trace_until_lines keep_state s
                                ++ [Call DrawBackOntoTheRoad;
                                    Assign G_processed_frames])
               /\ (line_lt (session_of r), line_rt (session_of r))
                  = fst (located E frame keep_state s)).
  { subst r.
    destruct (process_pipeline_run E frame keep_state s)
      as [(e & _ & ->) | [(off & e & _ & _ & ->) | (off & blend & _ & _ & ->)]];
      (split; [auto | unfold session_of; cbn [fst snd line_lt line_rt];
                      now destruct (located E frame keep_state s) as [[? ?] ?]]). }
  destruct Hr as [Ht Hs]. clearbody r.
  pose proof (warmb_iff keep_state s) as Hw.
  assert (Hprev : In (Call GetFitsByPreviousFits) (trace_of r)
                  <-> warmb keep_state s = true).
  { unfold trace_until_lines in Ht.
    destruct (warmb keep_state s); destruct Ht as [-> | [-> | ->]]; simpl;
      split; intros H; auto; try discriminate;
      repeat (destruct H as [H | H]; try discriminate H); contradiction. }
  assert (Hslide : In (Call GetFitsBySlidingWindows) (trace_of r)
                   <-> warmb keep_state s = false).
  { unfold trace_until_lines in Ht.
    destruct (warmb keep_state s); destruct Ht as [-> | [-> | ->]]; simpl;
      split; intros H; auto; try discriminate;
      repeat (destruct H as [H | H]; try discriminate H); contradiction. }
  assert (Hcold : warmb keep_state s = false <-> ~ warm keep_state s).
  { rewrite <- Hw. destruct (warmb keep_state s); split; congruence. }
  split; [rewrite Hprev; exact Hw |].
  split; [rewrite Hslide; exact Hcold |].
  split; [| split].
  - intros H. apply Hw in H. unfold located in Hs. now rewrite H in Hs.
  - intros H. apply Hcold in H. unfold located in Hs. now rewrite H in Hs.
  - intros ->.
    assert (W : warmb false s = false) by (unfold warmb; now rewrite andb_false_r).
    split; [now apply Hslide |]. rewrite Hprev, W. discriminate.
Qed.

(** ** The reported curvature *)

Lemma round_half_even_compat (a b : Q) :
  a == b -> round_half_even a = round_half_even b.
Proof.
  intros H. unfold round_half_even.
  rewrite (Qfloor_comp a b H).
  assert (E : a - inject_Z (Qfloor b) == b - inject_Z (Qfloor b))
    by now rewrite H.
  now rewrite (Qcompare_comp _ _ E (1 # 2) (1 # 2) (Qeq_refl _)).
Qed.

(** Equal numbers are printed alike. *)
Lemma format_02f_compat (a b : Q) :
  a == b -> format_02f (Fin a) = format_02f (Fin b).
Proof.
  intros H. unfold format_02f.
  assert (E : Qabs a * 100 == Qabs b * 100) by now rewrite H.
  rewrite (round_half_even_compat _ _ E).
  now rewrite (Qleb_comp 0 0 (Qeq_refl 0) a b H).
Qed.

Lemma np_mean_pair (a b : Q) :
  exists m, np_mean [a; b] = Fin m /\ m == (a + b) / 2.
Proof.
  eexists. split; [reflexivity |]. unfold np_sum. simpl. field.
Qed.

Lemma thumb_size (n : Z) : (0 <= n)%Z -> py_int ((2 # 10) * inject_Z n) = (n / 5)%Z.
Proof.
  intros Hn. unfold py_int.
  assert (Hq : 0 <= (2 # 10) * inject_Z n).
  { apply Qmult_le_0_compat; [discriminate |].
    change 0 with (inject_Z 0). now rewrite <- Zle_Qle. }
  apply Qle_bool_iff in Hq. rewrite Hq.
  unfold Qfloor, Qmult, inject_Z. cbn [Qnum Qden].
  change (Z.pos (10 * 1)) with (2 * 5)%Z.
  now rewrite Z.div_mul_cancel_l.
Qed.

Lemma cv2_resize_ok (src : image) (dw dh : Z) :
  nonempty_image src -> (0 < dw)%Z -> (0 < dh)%Z ->
  cv2_resize src (dw, dh) = Returns (Resize src (dw, dh)).
Proof.
  unfold nonempty_image, cv2_resize. destruct (shape src) as [sh sw].
  cbn [fst snd]. intros [Hh Hw] Hdw Hdh.
  apply Z.ltb_lt in Hh, Hw, Hdw, Hdh. now rewrite Hh, Hw, Hdw, Hdh.
Qed.

Lemma np_slice_len_inside (a b n : Z) :
  (0 <= a)%Z -> (a <= b)%Z -> (b <= n)%Z -> np_slice_len (a, b) n = (b - a)%Z.
Proof.
  intros Ha Hab Hbn. unfold np_slice_len, np_slice_bound. cbn [fst snd].
  destruct (Z.ltb_spec a 0); destruct (Z.ltb_spec b 0); lia.
Qed.

Lemma np_assign_region_ok (dst src : image) (r0 r1 c0 c1 : Z) :
  (0 <= r0)%Z -> (r0 <= r1)%Z -> (r1 <= fst (shape dst))%Z ->
  (0 <= c0)%Z -> (c0 <= c1)%Z -> (c1 <= snd (shape dst))%Z ->
  shape src = ((r1 - r0)%Z, (c1 - c0)%Z) ->
  np_assign_region dst (r0, r1) (c0, c1) src
  = Returns (SetRegion dst (r0, r1) (c0, c1) src).
Proof.
  unfold np_assign_region. destruct (shape dst) as [h w]. cbn [fst snd].
  intros Hr0 Hr Hr1 Hc0 Hc Hc1 ->.
  rewrite !np_slice_len_inside by lia. unfold np_broadcasts.
  now rewrite !Z.eqb_refl.
Qed.

(** With room for the thumbnails and something to show in them, the
    stitching returns. *)
Lemma prepare_out_blend_frame_fits (blend_on_road img_binary img_birdeye
    img_fit : image) (lline rline : Line) (offset_meter : num) (s : session) :
  room_for_thumbnails blend_on_road ->
  nonempty_image img_binary -> nonempty_image img_birdeye ->
  nonempty_image img_fit ->
  exists out,
    prepare_out_blend_frame blend_on_road img_binary img_birdeye img_fit
      lline rline offset_meter s = (Returns out, s, []).
Proof.
  unfold room_for_thumbnails, prepare_out_blend_frame.
  destruct (shape blend_on_road) as [h w] eqn:Hs. cbn [fst snd].
  intros [Hh Hw] Hb He Hf.
  rewrite (thumb_size h), (thumb_size w) by lia.
  assert (Hth : (3 <= h / 5 /\ 15 + h / 5 <= h)%Z)
    by (split; Z.div_mod_to_equations; lia).
  assert (Htw : (29 <= w / 5 /\ 60 + 3 * (w / 5) <= w)%Z)
    by (split; Z.div_mod_to_equations; lia).
  unfold bind, lift, ret.
  rewrite (cv2_resize_ok img_binary) by (auto; lia).
  rewrite np_assign_region_ok;
    try (cbn [shape fst snd]; rewrite ?Hs; cbn [fst snd]; lia).
  2: { cbn [shape]. f_equal; lia. }
  rewrite (cv2_resize_ok img_birdeye) by (auto; lia).
  rewrite np_assign_region_ok;
    try (cbn [shape fst snd]; rewrite ?Hs; cbn [fst snd]; lia).
  2: { cbn [shape]. f_equal; lia. }
  rewrite (cv2_resize_ok img_fit) by (auto; lia).
  rewrite np_assign_region_ok;
    try (cbn [shape fst snd]; rewrite ?Hs; cbn [fst snd]; lia).
  2: { cbn [shape]. f_equal; lia. }
  eexists. reflexivity.
Qed.

(** C5.  On every frame [prepare_out_blend_frame] returns, the curvature
    written is the arithmetic mean of the two lines' [curvature_meter]
    (printed with two decimals, between "Curvature radius: " and "m"); and
    it returns a frame whenever the frame given has room for the
    thumbnails (18 rows, 147 columns) and the images to show in them are
    not empty. *)
Theorem reported_curvature_is_mean :
  forall (blend_on_road img_binary img_birdeye img_fit : image)
         (lline rline : Line) (offset_meter : num) (s : session),
    let r := prepare_out_blend_frame blend_on_road img_binary img_birdeye
               img_fit lline rline offset_meter s in
    (forall out,
        result_of r = Returns out ->
        exists base,
          out = PutText
                  (PutText base
                     ("Curvature radius: "
                      ++ format_02f (Fin ((curvature_meter lline
                                           + curvature_meter rline) / 2))
                      ++ "m")%string
                     (860, 60)%Z cv2_FONT_HERSHEY_SIMPLEX (9 # 10)
                     (255, 255, 255)%Z 2 cv2_LINE_AA)
                  ("Offset from center: " ++ format_02f offset_meter
                   ++ "m")%string
                  (860, 130)%Z cv2_FONT_HERSHEY_SIMPLEX (9 # 10)
                  (255, 255, 255)%Z 2 cv2_LINE_AA)
    /\ (room_for_thumbnails blend_on_road ->
        nonempty_image img_binary -> nonempty_image img_birdeye ->
        nonempty_image img_fit ->
        exists out, result_of r = Returns out).
Proof.
  intros b ib ie ifit lline rline off s r. subst r. split.
  - intros out Hout.
    destruct (prepare_out_blend_frame_returned b ib ie ifit lline rline off s
                out Hout) as (base & -> & _).
    destruct (np_mean_pair (curvature_meter lline) (curvature_meter rline))
      as (m & Hm & Em).
    exists base. now rewrite Hm, (format_02f_compat _ _ Em).
  - intros Hroom Hb He Hf.
    destruct (prepare_out_blend_frame_fits b ib ie ifit lline rline off s
                Hroom Hb He Hf) as [out ->].
    now exists out.
Qed.

Lemma reported_curvature_is_mean_witness :
  exists out base,
    result_of (prepare_out_blend_frame example_frame example_frame
                 example_frame example_frame example_left example_right
                 (Fin 0) initial_session) = Returns out
    /\ out = PutText
               (PutText base "Curvature radius: 1100.00m"
                  (860, 60)%Z cv2_FONT_HERSHEY_SIMPLEX (9 # 10)
                  (255, 255, 255)%Z 2 cv2_LINE_AA)
               "Offset from center: 0.00m"
               (860, 130)%Z cv2_FONT_HERSHEY_SIMPLEX (9 # 10)
               (255, 255, 255)%Z 2 cv2_LINE_AA.
Proof.
  destruct (proj2 (reported_curvature_is_mean example_frame example_frame
                     example_frame example_frame example_left example_right
                     (Fin 0) initial_session)) as [out Hout].
  - split; cbn; lia.
  - split; cbn; lia.
  - split; cbn; lia.
  - split; cbn; lia.
  - destruct (proj1 (reported_curvature_is_mean example_frame example_frame
                       example_frame example_frame example_left example_right
                       (Fin 0) initial_session) out Hout) as [base Hbase].
    exists out, base. split; [exact Hout | exact Hbase].
Defined.

(** ** Who changes the session *)

(** C7.  [compute_offset_from_center] and [prepare_out_blend_frame] leave
    the session as they found it, both lines (flag, pixels, history,
    curvature) and the frame counter, whatever they are given and whether
    or not they raise; neither assigns a global. *)
Theorem estimator_and_renderer_read_only :
  forall (xm : Q) (lline rline : Line) (frame_width : Q)
         (blend_on_road img_binary img_birdeye img_fit : image)
         (offset_meter : num) (s : session),
    let r1 := compute_offset_from_center xm lline rline frame_width s in
    let r2 := prepare_out_blend_frame blend_on_road img_binary img_birdeye
                img_fit lline rline offset_meter s in
    (session_of r1 = s /\ trace_of r1 = [])
    /\ (session_of r2 = s /\ trace_of r2 = []).
Proof.
  intros xm lline rline w b ib ie ifit off s r1 r2. subst r1 r2.
  destruct (compute_offset_from_center_run xm lline rline w s) as [o ->].
  destruct (prepare_out_blend_frame_run b ib ie ifit lline rline off s)
    as [o2 ->].
  repeat split.
Qed.

Lemma offset_returns_on_consistent_lines (xm : Q) (lline rline : Line)
    (w : Q) (s : session) :
  Line_consistent lline -> Line_consistent rline ->
  exists off, compute_offset_from_center xm lline rline w s = (Returns off, s, []).
Proof.
  intros Cl Cr.
  destruct (detected lline) eqn:Dl; [destruct (detected rline) eqn:Dr |].
  - destruct (line_bottom_spec lline (Cl Dl)) as (ml & _ & El).
    destruct (line_bottom_spec rline (Cr Dr)) as (mr & _ & Er).
    eexists. apply (offset_of_bottoms xm lline rline w s _ _ Dl Dr El Er).
  - exists (Fin (-1)).
    unfold compute_offset_from_center, offset_branch_of. now rewrite Dl, Dr.
  - exists (Fin (-1)).
    unfold compute_offset_from_center, offset_branch_of. now rewrite Dl.
Qed.

Lemma located_consistent (E : environment) (frame : image) (keep_state : bool)
    (s : session) :
  locator_contract E ->
  Line_consistent (fst (fst (located E frame keep_state s)))
  /\ Line_consistent (snd (fst (located E frame keep_state s))).
Proof.
  intros [Hprev Hslide]. unfold located.
  destruct (warmb keep_state s); [apply Hprev | apply Hslide].
Qed.

(** C6 as stated fails on a call that raises.  A frame 145 columns wide
    has no room for the third thumbnail: the stitching raises ValueError
    and the counter stays where it was.  The same happens, one step
    earlier, when the search reports a line as detected without pixels. *)
Lemma frame_counter_counterexample :
  (let r := process_pipeline example_environment example_narrow_frame true
              initial_session in
   result_of r = Raises ValueError
   /\ processed_frames (session_of r) = processed_frames initial_session
   /\ processed_frames (session_of r)
      <> (processed_frames initial_session + 1)%Z)
  /\ (let r := process_pipeline example_faulty_environment example_frame true
                 initial_session in
      result_of r = Raises ValueError
      /\ processed_frames (session_of r) = processed_frames initial_session
      /\ processed_frames (session_of r)
         <> (processed_frames initial_session + 1)%Z).
Proof.
  split; cbv zeta; (split; [reflexivity |]); (split; [reflexivity |]);
    vm_compute; discriminate.
Qed.

(** C6, as amended.  Every call of [process_pipeline] that returns has
    incremented the frame counter by exactly one and assigned each of the
    three session globals exactly once: [line_lt], [line_rt], then
    [processed_frames]; a call that raises (in the estimator or in the
    renderer: the imported collaborators are taken to return) has assigned
    the two lines and left the counter as it was.  The assignments are the
    orchestrator's own: the estimator and the renderer it calls assign
    nothing.  A call returns whenever the lines the search returns are
    consistent, the frame to stitch has room for the thumbnails and the
    images to show in them are not empty. *)
Theorem frame_counter_incremented_once :
  forall (E : environment) (frame : image) (keep_state : bool) (s : session),
    let r := process_pipeline E frame keep_state s in
    (forall blend,
        result_of r = Returns blend ->
        processed_frames (session_of r) = (processed_frames s + 1)%Z
        /\ assignments (trace_of r)
           = [G_line_lt; G_line_rt; G_processed_frames])
    /\ (forall e,
        result_of r = Raises e ->
        processed_frames (session_of r) = processed_frames s
        /\ assignments (trace_of r) = [G_line_lt; G_line_rt])
    /\ (forall xm lline rline w s0,
           assignments (trace_of (compute_offset_from_center xm lline rline w s0))
           = [])
    /\ (forall b ib ie ifit lline rline off s0,
           assignments (trace_of (prepare_out_blend_frame b ib ie ifit
                                    lline rline off s0)) = [])
    /\ (Line_consistent (fst (fst (located E frame keep_state s))) ->
        Line_consistent (snd (fst (located E frame keep_state s))) ->
        room_for_thumbnails (drawn_of E frame keep_state s) ->
        nonempty_image (binary_of E frame) ->
        nonempty_image (birdeye_of E frame) ->
        nonempty_image (snd (located E frame keep_state s)) ->
        exists blend, result_of r = Returns blend).
Proof.
  intros E frame keep_state s r. subst r.
  assert (Htr : forall t, assignments (trace_until_lines keep_state s ++ t)
                          = [G_line_lt; G_line_rt] ++ assignments t).
  { intros t. unfold trace_until_lines. now destruct (warmb keep_state s). }
  split; [| split; [| split; [| split]]].
  - intros blend Hres.
    destruct (process_pipeline_run E frame keep_state s)
      as [(e & _ & Hp) | [(off & e & _ & _ & Hp) | (off & b & _ & _ & Hp)]];
      rewrite Hp in Hres |- *; try discriminate Hres.
    unfold session_of, trace_of. cbn [fst snd processed_frames].
    split; [reflexivity | now rewrite Htr].
  - intros e Hres.
    destruct (process_pipeline_run E frame keep_state s)
      as [(e' & _ & Hp) | [(off & e' & _ & _ & Hp) | (off & b & _ & _ & Hp)]];
      rewrite Hp in Hres |- *; try discriminate Hres;
      unfold session_of, trace_of; cbn [fst snd processed_frames];
      (split; [reflexivity |]).
    + rewrite <- (app_nil_r (trace_until_lines keep_state s)). now rewrite Htr.
    + now rewrite Htr.
  - intros xm lline rline w s0.
    now destruct (compute_offset_from_center_run xm lline rline w s0) as [o ->].
  - intros b ib ie ifit lline rline off0 s0.
    now destruct (prepare_out_blend_frame_run b ib ie ifit lline rline off0 s0)
      as [o ->].
  - intros Cl Cr Hroom Hb He Hf.
    destruct (offset_returns_on_consistent_lines (xm_per_pix E) _ _
                (inject_Z (snd (shape frame)))
                (mkSession (fst (fst (located E frame keep_state s)))
                           (snd (fst (located E frame keep_state s)))
                           (processed_frames s)) Cl Cr) as [off Hoff].
    destruct (process_pipeline_run E frame keep_state s)
      as [(e & He' & _) | [(off' & e & Ho & Hst & _) | (off' & b & _ & _ & ->)]].
    + rewrite Hoff in He'. discriminate He'.
    + rewrite Hoff in Ho. injection Ho as <-.
      unfold stitched_of in Hst.
      destruct (prepare_out_blend_frame_fits _ _ _ _
                  (fst (fst (located E frame keep_state s)))
                  (snd (fst (located E frame keep_state s))) off
                  (mkSession (fst (fst (located E frame keep_state s)))
                             (snd (fst (located E frame keep_state s)))
                             (processed_frames s)) Hroom Hb He Hf)
        as [out Hout].
      rewrite Hout in Hst. discriminate Hst.
    + now exists b.
Qed.

Lemma frame_counter_incremented_once_witness :
  (let r := process_pipeline example_environment example_frame true
              initial_session in
   exists blend,
     result_of r = Returns blend
     /\ processed_frames (session_of r)
        = (processed_frames initial_session + 1)%Z
     /\ assignments (trace_of r)
        = [G_line_lt; G_line_rt; G_processed_frames])
  /\ (let r := process_pipeline example_environment example_narrow_frame true
                 initial_session in
      processed_frames (session_of r) = processed_frames initial_session
      /\ assignments (trace_of r) = [G_line_lt; G_line_rt]).
Proof.
  cbv zeta. split.
  - destruct (proj2 (proj2 (proj2 (proj2
                (frame_counter_incremented_once example_environment
                   example_frame true initial_session))))) as [blend Hblend].
    + intros _. split; [discriminate | reflexivity].
    + intros _. split; [discriminate | reflexivity].
    + split; cbn; lia.
    + split; cbn; lia.
    + split; cbn; lia.
    + split; cbn; lia.
    + exists blend. split; [exact Hblend |].
      exact (proj1 (frame_counter_incremented_once example_environment
                      example_frame true initial_session) blend Hblend).
  - exact (proj1 (proj2 (frame_counter_incremented_once example_environment
                           example_narrow_frame true initial_session))
             ValueError eq_refl).
Defined.

(** ** Determinism *)




(** ** The bounded history *)

Lemma history_push_length {A : Type} (k : nat) (h : list A) (fit : A) :
  (length (history_push k h fit) <= k)%nat.
Proof.
  unfold history_push. rewrite length_skipn, length_app. simpl. lia.
Qed.

Lemma history_push_all {A : Type} (k : nat) : forall (fits h : list A),
  (length h <= k)%nat ->
  fold_left (history_push k) fits h
  = skipn (length h + length fits - k) (h ++ fits).
Proof.
  induction fits as [| f fits IH]; intros h Hh.
  - simpl. replace (length h + 0 - k)%nat with 0%nat by lia.
    now rewrite app_nil_r.
  - cbn [fold_left]. rewrite IH by apply history_push_length.
    unfold history_push. rewrite length_skipn, !length_app. cbn [length].
    destruct (Nat.eq_dec (length h) k) as [Hk | Hk].
    + replace (length h + 1 - k)%nat with 1%nat by lia.
      replace (length h + S (length fits) - k)%nat with (S (length fits)) by lia.
      replace (length h + 1 - 1 + length fits - k)%nat with (length fits) by lia.
      destruct h as [| a h]; cbn [app skipn]; [reflexivity |].
      now rewrite <- app_assoc.
    + replace (length h + 1 - k)%nat with 0%nat by lia. cbn [skipn].
      rewrite <- app_assoc. cbn [app]. f_equal. lia.
Qed.

Lemma run_ops_invariant (ops : list Line_op) : forall l,
  (length (history l) <= buffer_len l)%nat ->
  buffer_len (run_ops l ops) = buffer_len l
  /\ (length (history (run_ops l ops)) <= buffer_len l)%nat.
Proof.
  unfold run_ops. induction ops as [| op ops IH]; intros l Hl; [now split |].
  cbn [fold_left].
  assert (H : buffer_len (apply_op l op) = buffer_len l
              /\ (length (history (apply_op l op)) <= buffer_len l)%nat).
  { destruct op; cbn [apply_op update mark_undetected buffer_len history];
      split; auto. apply history_push_length. }
  destruct H as [Hb Hh].
  destruct (IH (apply_op l op)) as [IHb IHh]; [now rewrite Hb |].
  rewrite <- Hb. now split.
Qed.

Lemma run_updates_history (fits : list (list Q * list Q * FitPair)) : forall l,
  buffer_len (run_ops l (map update_of fits)) = buffer_len l
  /\ history (run_ops l (map update_of fits))
     = fold_left (history_push (buffer_len l)) (map snd fits) (history l).
Proof.
  unfold run_ops. induction fits as [| [[px py] [fp fm]] fits IH]; intros l;
    [now split |].
  cbn [map fold_left update_of apply_op snd fit_pixel fit_meter].
  destruct (IH (update l px py fp fm)) as [Hb Hh].
  cbn [update buffer_len history] in Hb, Hh. now split.
Qed.

(** C8.  For every buffer size k, the history of a line created with that
    size never holds more than k fits, whatever sequence of updates and
    undetected frames the line goes through; and after k+1 fits (a first
    one and k more) are inserted into a fresh line, the history is exactly
    the k later ones in insertion order: its length is k and the first
    fit inserted is the one evicted. *)
Theorem history_bounded_fifo :
  (forall (k : nat) (ops : list Line_op),
      (length (history (run_ops (new_Line k) ops)) <= k)%nat)
  /\ (forall (first : list Q * list Q * FitPair)
             (rest : list (list Q * list Q * FitPair)),
         let k := length rest in
         let l := run_ops (new_Line k) (map update_of (first :: rest)) in
         history l = map snd rest /\ length (history l) = k).
Proof.
  split.
  - intros k ops.
    destruct (run_ops_invariant ops (new_Line k)) as [_ H]; [simpl; lia |].
    exact H.
  - intros first rest k l. subst l.
    destruct (run_updates_history (first :: rest) (new_Line k)) as [_ H].
    assert (E : history (run_ops (new_Line k) (map update_of (first :: rest)))
                = map snd rest).
    { rewrite H. cbn [new_Line buffer_len history].
      rewrite history_push_all by (simpl; lia).
      cbn [map length app]. rewrite length_map. fold k.
      replace (0 + S k - k)%nat with 1%nat by lia. reflexivity. }
    split; [exact E |]. now rewrite E, length_map.
Qed.

(** ** The theorems at the examples *)

Lemma offset_sentinel_when_undetected_witness :
  compute_offset_from_center (37 # 7000) (new_Line 10) example_right 1280
    initial_session
  = (Returns (Fin (-1)), initial_session, []).
Proof.
  apply (proj1 (offset_sentinel_when_undetected (37 # 7000) (new_Line 10)
                  example_right 1280 initial_session)).
  left. reflexivity.
Defined.

Lemma search_selection_witness :
  In (Call GetFitsByPreviousFits)
     (trace_of (process_pipeline example_environment example_frame true
                  (mkSession example_left example_right 3)))
  /\ In (Call GetFitsBySlidingWindows)
        (trace_of (process_pipeline example_environment example_frame false
                     (mkSession example_left example_right 3))).
Proof.
  split.
  - apply (proj2 (proj1 (search_selection example_environment example_frame
                           true (mkSession example_left example_right 3)))).
    unfold warm. repeat split; reflexivity.
  - apply (proj1 (proj2 (proj2 (proj2 (proj2
             (search_selection example_environment example_frame false
                (mkSession example_left example_right 3))))) eq_refl)).
Defined.

(** * Further properties of the notebook's functions *)

(** ** When the offset computation raises *)

Lemma line_bottom_raises (line : Line) :
  (exists e, line_bottom line = Raises e) <-> ~ nonempty_pixel_set line.
Proof.
  unfold nonempty_pixel_set. split.
  - intros [e He] [Hne Hlen].
    destruct (line_bottom_spec line (conj Hne Hlen)) as (m & _ & E).
    congruence.
  - intros H. unfold line_bottom, bottom_pixels, np_index_mask, np_greater, np_max.
    destruct (all_y line) as [| y ys] eqn:Ey; [eexists; reflexivity |].
    rewrite length_map.
    destruct (Nat.eqb (length (all_x line)) (length (y :: ys))) eqn:El.
    + exfalso. apply H. split; [discriminate | now apply Nat.eqb_eq].
    + eexists. reflexivity.
Qed.

Lemma nonempty_pixel_set_dec_aux (line : Line) :
  nonempty_pixel_set line \/ ~ nonempty_pixel_set line.
Proof.
  unfold nonempty_pixel_set.
  destruct (all_y line) as [| y ys]; [right; intros [H _]; now apply H |].
  destruct (Nat.eq_dec (length (all_x line)) (length (y :: ys))) as [E | E].
  - left. split; [discriminate | exact E].
  - right. intros [_ H]. now apply E.
Qed.

Lemma offset_raises_when (xm : Q) (lline rline : Line) (w : Q) (s : session) :
  detected lline = true -> detected rline = true ->
  ~ (nonempty_pixel_set lline /\ nonempty_pixel_set rline) ->
  exists e, compute_offset_from_center xm lline rline w s = (Raises e, s, []).
Proof.
  intros Dl Dr Hbad.
  unfold compute_offset_from_center, offset_branch_of, bind, lift, ret.
  rewrite Dl, Dr. cbn [andb].
  destruct (line_bottom lline) as [bl | el] eqn:El; [| now exists el].
  destruct (line_bottom rline) as [br | er] eqn:Er; [| now exists er].
  exfalso. apply Hbad. split.
  - destruct (nonempty_pixel_set_dec_aux lline) as [H | H]; [exact H |].
    apply line_bottom_raises in H. destruct H as [e He]. congruence.
  - destruct (nonempty_pixel_set_dec_aux rline) as [H | H]; [exact H |].
    apply line_bottom_raises in H. destruct H as [e He]. congruence.
Qed.

(** [compute_offset_from_center] raises exactly when both lines are
    flagged as detected and one of them has no y-coordinates or not as
    many x- as y-coordinates; the session is as it was. *)
Theorem offset_raises_iff :
  forall (xm : Q) (lline rline : Line) (w : Q) (s : session),
    (exists e, compute_offset_from_center xm lline rline w s = (Raises e, s, []))
    <-> (detected lline = true /\ detected rline = true
         /\ ~ (nonempty_pixel_set lline /\ nonempty_pixel_set rline)).
Proof.
  intros xm lline rline w s. split.
  - intros [e He].
    destruct (detected lline) eqn:Dl; [destruct (detected rline) eqn:Dr |].
    + split; [reflexivity | split; [reflexivity |]]. intros [Hl Hr].
      destruct (line_bottom_spec lline Hl) as (ml & _ & El).
      destruct (line_bottom_spec rline Hr) as (mr & _ & Er).
      rewrite (offset_of_bottoms xm lline rline w s _ _ Dl Dr El Er) in He.
      discriminate He.
    + unfold compute_offset_from_center, offset_branch_of in He.
      rewrite Dl, Dr in He. discriminate He.
    + unfold compute_offset_from_center, offset_branch_of in He.
      rewrite Dl in He. discriminate He.
  - intros (Dl & Dr & Hbad). now apply offset_raises_when.
Qed.

Lemma line_bottom_no_rows (line : Line) :
  all_y line = [] -> line_bottom line = Raises ValueError.
Proof.
  intros H. unfold line_bottom, bottom_pixels. now rewrite H.
Qed.

Lemma line_bottom_mismatch (line : Line) :
  all_y line <> [] -> length (all_x line) <> length (all_y line) ->
  line_bottom line = Raises IndexError.
Proof.
  intros Hne Hlen.
  unfold line_bottom, bottom_pixels, np_index_mask, np_greater, np_max.
  destruct (all_y line) as [| y ys]; [congruence |].
  rewrite length_map. apply Nat.eqb_neq in Hlen. now rewrite Hlen.
Qed.

Lemma offset_left_raises (xm : Q) (lline rline : Line) (w : Q) (s : session)
    (e : exn) :
  detected lline = true -> detected rline = true ->
  line_bottom lline = Raises e ->
  compute_offset_from_center xm lline rline w s = (Raises e, s, []).
Proof.
  intros Dl Dr El.
  unfold compute_offset_from_center, offset_branch_of, bind, lift.
  now rewrite Dl, Dr, El.
Qed.

Lemma offset_right_raises (xm : Q) (lline rline : Line) (w : Q) (s : session)
    (e : exn) :
  detected lline = true -> detected rline = true ->
  nonempty_pixel_set lline -> line_bottom rline = Raises e ->
  compute_offset_from_center xm lline rline w s = (Raises e, s, []).
Proof.
  intros Dl Dr Hl Er. destruct (line_bottom_spec lline Hl) as (m & _ & El).
  unfold compute_offset_from_center, offset_branch_of, bind, lift.
  now rewrite Dl, Dr, El, Er.
Qed.

(** With both lines flagged as detected, a line without y-coordinates
    makes [compute_offset_from_center] raise ValueError and a line with
    x- and y-arrays of different lengths makes it raise IndexError; the
    left line is looked at first, so its error is the one raised whatever
    the right line holds. *)
Theorem offset_exception_kind :
  forall (xm : Q) (lline rline : Line) (w : Q) (s : session),
    detected lline = true -> detected rline = true ->
    (all_y lline = [] ->
     compute_offset_from_center xm lline rline w s = (Raises ValueError, s, []))
    /\ (all_y lline <> [] -> length (all_x lline) <> length (all_y lline) ->
        compute_offset_from_center xm lline rline w s
        = (Raises IndexError, s, []))
    /\ (nonempty_pixel_set lline -> all_y rline = [] ->
        compute_offset_from_center xm lline rline w s
        = (Raises ValueError, s, []))
    /\ (nonempty_pixel_set lline -> all_y rline <> [] ->
        length (all_x rline) <> length (all_y rline) ->
        compute_offset_from_center xm lline rline w s
        = (Raises IndexError, s, [])).
Proof.
  intros xm lline rline w s Dl Dr. repeat split.
  - intros H. apply offset_left_raises; auto using line_bottom_no_rows.
  - intros H1 H2. apply offset_left_raises; auto using line_bottom_mismatch.
  - intros Hl H. apply offset_right_raises; auto using line_bottom_no_rows.
  - intros Hl H1 H2. apply offset_right_raises; auto using line_bottom_mismatch.
Qed.

(** ** Whether the offset is a number *)

Lemma filter_none {A : Type} (f : A -> bool) (l : list A) :
  (forall a, In a l -> f a = false) -> filter f l = [].
Proof.
  induction l as [| a l IH]; intros H; [reflexivity |].
  simpl. rewrite (H a) by now left. apply IH. intros b Hb. apply H. now right.
Qed.

Lemma in_combine_exists {A B : Type} (y : B) : forall (xs : list A) (ys : list B),
  length xs = length ys -> In y ys -> exists x, In (x, y) (combine xs ys).
Proof.
  induction xs as [| x xs IH]; intros [| y0 ys] Hlen Hin; try discriminate;
    [contradiction |].
  simpl in Hlen. injection Hlen as Hlen. destruct Hin as [-> | Hin].
  - exists x. now left.
  - destruct (IH ys Hlen Hin) as [x' Hx']. exists x'. now right.
Qed.

Lemma Qgtb_true (a b : Q) : Qgtb a b = true <-> b < a.
Proof.
  unfold Qgtb. rewrite negb_true_iff. split.
  - intros H. apply Qnot_le_lt. intros Hle. apply Qle_bool_iff in Hle. congruence.
  - intros H. destruct (Qle_bool a b) eqn:E; [| reflexivity].
    apply Qle_bool_iff in E. exfalso. now apply (Qlt_not_le b a).
Qed.

(** No row above zero: nothing is selected. *)
Lemma bottom_pixels_none (line : Line) :
  nonempty_pixel_set line -> (forall y, In y (all_y line) -> y <= 0) ->
  line_bottom line = Returns NaN.
Proof.
  intros Hset Hrows.
  destruct (bottom_pixels_spec line Hset) as (m & [Hin Hmax] & E).
  unfold line_bottom. rewrite E. rewrite filter_none; [reflexivity |].
  intros [x y] Hp. cbn [snd].
  destruct (Qgtb y ((95 # 100) * m)) eqn:G; [| reflexivity].
  apply Qgtb_true in G. apply in_combine_r in Hp.
  pose proof (Hmax y Hp). pose proof (Hrows m Hin). lra.
Qed.

(** A row above zero: the pixels of the lowest row are selected. *)
Lemma bottom_pixels_some (line : Line) :
  nonempty_pixel_set line -> (exists y, In y (all_y line) /\ 0 < y) ->
  exists sel, bottom_pixels line = Returns sel /\ sel <> []
              /\ forall x, In x sel -> In x (all_x line).
Proof.
  intros Hset (y & Hy & Hpos).
  destruct (bottom_pixels_spec line Hset) as (m & [Hin Hmax] & E).
  eexists. split; [exact E |].
  destruct Hset as [_ Hlen].
  destruct (in_combine_exists m (all_x line) (all_y line) Hlen Hin) as [x Hx].
  split.
  - assert (Hsel : In x (map fst (filter (fun p => Qgtb (snd p) ((95 # 100) * m))
                                    (pixels line)))).
    { apply in_map_iff. exists (x, m). split; [reflexivity |].
      apply filter_In. split; [exact Hx |]. cbn [snd]. apply Qgtb_true.
      pose proof (Hmax y Hy). lra. }
    intros Hnil. rewrite Hnil in Hsel. exact Hsel.
  - intros x' Hx'. apply in_map_iff in Hx'. destruct Hx' as ([x0 y0] & <- & Hf).
    apply filter_In in Hf. destruct Hf as [Hf _]. now apply in_combine_l in Hf.
Qed.

(** When all the pixels of a detected line lie in row 0 (or above it),
    no pixel passes the test y > 0.95 * max y and
    [compute_offset_from_center] returns nan: no exception, no sentinel. *)
Theorem offset_nan_without_positive_row :
  forall (xm : Q) (lline rline : Line) (w : Q) (s : session),
    detected lline = true -> detected rline = true ->
    nonempty_pixel_set lline -> nonempty_pixel_set rline ->
    ((forall y, In y (all_y lline) -> y <= 0)
     \/ (forall y, In y (all_y rline) -> y <= 0)) ->
    compute_offset_from_center xm lline rline w s = (Returns NaN, s, []).
Proof.
  intros xm lline rline w s Dl Dr Hl Hr Hrows.
  destruct (line_bottom_spec lline Hl) as (ml & _ & El).
  destruct (line_bottom_spec rline Hr) as (mr & _ & Er).
  rewrite (offset_of_bottoms xm lline rline w s _ _ Dl Dr El Er).
  destruct Hrows as [H | H].
  - pose proof (bottom_pixels_none lline Hl H) as N. rewrite El in N.
    injection N as ->. reflexivity.
  - pose proof (bottom_pixels_none rline Hr H) as N. rewrite Er in N.
    injection N as ->. unfold spec_offset.
    now destruct (spec_bottom_x lline ml).
Qed.

(** When each detected line has a pixel below the top row (y > 0), the
    offset is a finite number, and for a non-negative scale factor it is
    not negative. *)
Theorem offset_finite_with_positive_rows :
  forall (xm : Q) (lline rline : Line) (w : Q) (s : session),
    detected lline = true -> detected rline = true ->
    nonempty_pixel_set lline -> nonempty_pixel_set rline ->
    (exists y, In y (all_y lline) /\ 0 < y) ->
    (exists y, In y (all_y rline) /\ 0 < y) ->
    0 <= xm ->
    exists v, compute_offset_from_center xm lline rline w s
              = (Returns (Fin v), s, []) /\ 0 <= v.
Proof.
  intros xm lline rline w s Dl Dr Hl Hr Pl Pr Hxm.
  destruct (bottom_pixels_some lline Hl Pl) as (sl & El & Nl & _).
  destruct (bottom_pixels_some rline Hr Pr) as (sr & Er & Nr & _).
  destruct (line_bottom_of_selection lline sl El Nl) as [ql Bl].
  destruct (line_bottom_of_selection rline sr Er Nr) as [qr Br].
  eexists. split.
  - apply (offset_of_bottoms xm lline rline w s _ _ Dl Dr Bl Br).
  - assert (H : 0 <= xm * Qabs (ql + (qr - ql) / 2 - w / 2))
      by (apply Qmult_le_0_compat; [exact Hxm | apply Qabs_nonneg]).
    exact H.
Qed.

(** ** The size of the offset *)

Lemma np_sum_cons (x : Q) (xs : list Q) : np_sum (x :: xs) == np_sum xs + x.
Proof.
  unfold np_sum. cbn [fold_left]. apply fold_Qplus_acc.
Qed.

Lemma np_sum_bounds (lo hi : Q) (xs : list Q) :
  (forall x, In x xs -> lo <= x /\ x <= hi) ->
  inject_Z (Z.of_nat (length xs)) * lo <= np_sum xs
  /\ np_sum xs <= inject_Z (Z.of_nat (length xs)) * hi.
Proof.
  induction xs as [| x xs IH]; intros H.
  - change (inject_Z (Z.of_nat (length (@nil Q)))) with 0.
    change (np_sum []) with 0. rewrite !Qmult_0_l. split; apply Qle_refl.
  - destruct IH as [IHlo IHhi]; [intros y Hy; apply H; now right |].
    destruct (H x) as [Hlo Hhi]; [now left |].
    rewrite np_sum_cons. cbn [length]. rewrite Nat2Z.inj_succ. unfold Z.succ.
    rewrite inject_Z_plus. change (inject_Z 1) with 1.
    set (n := inject_Z (Z.of_nat (length xs))) in *.
    assert (E1 : (n + 1) * lo == n * lo + lo) by ring.
    assert (E2 : (n + 1) * hi == n * hi + hi) by ring.
    rewrite E1, E2. split.
    + apply Qplus_le_compat; assumption.
    + apply Qplus_le_compat; assumption.
Qed.

(** A mean lies between any bounds of the values. *)
Lemma np_mean_bounds (lo hi : Q) (xs : list Q) (m : Q) :
  np_mean xs = Fin m -> (forall x, In x xs -> lo <= x /\ x <= hi) ->
  lo <= m /\ m <= hi.
Proof.
  destruct xs as [| x xs]; [discriminate |].
  intros E H. destruct (np_sum_bounds lo hi (x :: xs) H) as [Hlo Hhi].
  unfold np_mean in E. injection E as E.
  change (Z.pos (Pos.of_succ_nat (length xs)))
    with (Z.of_nat (length (x :: xs))) in E.
  assert (Hn : 0 < inject_Z (Z.of_nat (length (x :: xs)))).
  { change 0 with (inject_Z 0). rewrite <- Zlt_Qlt. cbn [length]. lia. }
  rewrite <- E. split.
  - apply Qle_shift_div_l; [exact Hn |]. lra.
  - apply Qle_shift_div_r; [exact Hn |]. lra.
Qed.

Lemma line_bottom_bounds (line : Line) (lo hi : Q) :
  nonempty_pixel_set line -> (exists y, In y (all_y line) /\ 0 < y) ->
  (forall x, In x (all_x line) -> lo <= x /\ x <= hi) ->
  exists b, line_bottom line = Returns (Fin b) /\ lo <= b /\ b <= hi.
Proof.
  intros Hset Hpos Hx.
  destruct (bottom_pixels_some line Hset Hpos) as (sel & E & Hne & Hsub).
  destruct (np_mean_nonempty sel Hne) as [b Hb].
  exists b. split; [unfold line_bottom; now rewrite E, Hb |].
  apply (np_mean_bounds lo hi sel b Hb). intros x Hin. apply Hx, Hsub, Hin.
Qed.

(** When the pixels of both detected lines lie within the frame
    (0 <= x <= frame_width), the offset is at most half the frame width,
    in meters. *)
Theorem offset_at_most_half_width :
  forall (xm : Q) (lline rline : Line) (w : Q) (s : session),
    detected lline = true -> detected rline = true ->
    nonempty_pixel_set lline -> nonempty_pixel_set rline ->
    (exists y, In y (all_y lline) /\ 0 < y) ->
    (exists y, In y (all_y rline) /\ 0 < y) ->
    (forall x, In x (all_x lline) -> 0 <= x /\ x <= w) ->
    (forall x, In x (all_x rline) -> 0 <= x /\ x <= w) ->
    0 <= xm ->
    exists v, compute_offset_from_center xm lline rline w s
              = (Returns (Fin v), s, []) /\ v <= xm * (w / 2).
Proof.
  intros xm lline rline w s Dl Dr Hl Hr Pl Pr Xl Xr Hxm.
  destruct (line_bottom_bounds lline 0 w Hl Pl Xl) as (l & Bl & Hl0 & Hlw).
  destruct (line_bottom_bounds rline 0 w Hr Pr Xr) as (r & Br & Hr0 & Hrw).
  eexists. split.
  - apply (offset_of_bottoms xm lline rline w s _ _ Dl Dr Bl Br).
  - assert (E1 : l + (r - l) / 2 - w / 2
                 == (1 # 2) * l + (1 # 2) * r - (1 # 2) * w) by field.
    assert (E2 : w / 2 == (1 # 2) * w) by field.
    assert (Habs : Qabs (l + (r - l) / 2 - w / 2) <= w / 2)
      by (rewrite E1, E2; apply Qabs_Qle_condition; split; lra).
    assert (H : xm * Qabs (l + (r - l) / 2 - w / 2) <= xm * (w / 2)).
    { rewrite (Qmult_comm xm (Qabs _)), (Qmult_comm xm (w / 2)).
      now apply Qmult_le_compat_r. }
    exact H.
Qed.

(** ** When the stitching returns *)

Lemma np_broadcasts_true (d t : Z) :
  np_broadcasts d t = true <-> (d = t \/ d = 1)%Z.
Proof.
  unfold np_broadcasts. rewrite orb_true_iff, !Z.eqb_eq. tauto.
Qed.

Lemma np_broadcasts_false (d t : Z) :
  np_broadcasts d t = false <-> (d <> t /\ d <> 1)%Z.
Proof.
  unfold np_broadcasts. rewrite orb_false_iff, !Z.eqb_neq. tauto.
Qed.

(** A value of [t] >= 1 places fits the slice [a : a + t] of an axis of
    length [n] when the slice lies within the axis, or when [t] is 1. *)
Lemma region_fits (t a b n : Z) :
  (0 < t)%Z -> (0 <= a)%Z -> (b = a + t)%Z ->
  np_broadcasts t (np_slice_len (a, b) n) = true <-> (b <= n \/ t = 1)%Z.
Proof.
  intros Ht Ha Hb. rewrite np_broadcasts_true.
  unfold np_slice_len, np_slice_bound. cbn [fst snd].
  destruct (Z.ltb_spec a 0); destruct (Z.ltb_spec b 0); lia.
Qed.

Lemma cv2_resize_empty_size (src : image) (dw dh : Z) :
  (dw <= 0 \/ dh <= 0)%Z -> cv2_resize src (dw, dh) = Raises Cv2Error.
Proof.
  unfold cv2_resize. destruct (shape src) as [sh sw]. intros H.
  destruct (Z.ltb_spec 0 dw); destruct (Z.ltb_spec 0 dh);
    rewrite ?andb_false_r; try reflexivity; lia.
Qed.

(** For which frames [prepare_out_blend_frame] returns.  Given non-empty
    images to show, on a frame of h rows and w columns the function raises
    [cv2.error] when h < 5 or w < 5 (a thumbnail would be empty);
    otherwise it returns exactly when h <= 9 or h >= 18, and w <= 9 or
    w = 144 or w >= 147 (the thumbnails fit, or are one pixel thin and go
    into an empty slice), and raises ValueError for the other sizes. *)
Theorem stitching_returns_iff :
  forall (blend_on_road img_binary img_birdeye img_fit : image)
         (lline rline : Line) (offset_meter : num) (s : session) (h w : Z),
    shape blend_on_road = (h, w) -> (0 <= h)%Z -> (0 <= w)%Z ->
    nonempty_image img_binary -> nonempty_image img_birdeye ->
    nonempty_image img_fit ->
    let r := result_of (prepare_out_blend_frame blend_on_road img_binary
                          img_birdeye img_fit lline rline offset_meter s) in
    let fits := ((h <= 9 \/ 18 <= h) /\ (w <= 9 \/ w = 144 \/ 147 <= w))%Z in
    ((h < 5 \/ w < 5)%Z -> r = Raises Cv2Error)
    /\ ((5 <= h)%Z -> (5 <= w)%Z -> fits -> exists out, r = Returns out)
    /\ ((5 <= h)%Z -> (5 <= w)%Z -> ~ fits -> r = Raises ValueError).
Proof.
  intros b ib ie ifit lline rline off s h w Hs Hh Hw Hb He Hf r fits.
  subst r fits. unfold prepare_out_blend_frame. rewrite Hs.
  rewrite (thumb_size h Hh), (thumb_size w Hw).
  unfold bind, lift, ret, result_of.
  destruct (Z.le_gt_cases (w / 5) 0) as [Htw | Htw];
    [| destruct (Z.le_gt_cases (h / 5) 0) as [Hth | Hth]].
  - rewrite cv2_resize_empty_size by now left. cbn [fst].
    split; [reflexivity |].
    split; intros; exfalso; Z.div_mod_to_equations; lia.
  - rewrite cv2_resize_empty_size by now right. cbn [fst].
    split; [reflexivity |].
    split; intros; exfalso; Z.div_mod_to_equations; lia.
  - rewrite !cv2_resize_ok by (auto; lia).
    unfold np_assign_region. cbn [shape]. rewrite Hs.
    repeat match goal with
           | |- context [if ?c then _ else _] =>
               let C := fresh "C" in
               destruct c eqn:C; cbn [fst snd shape]; rewrite ?Hs
           end;
      repeat match goal with
             | H : _ && _ = false |- _ => apply not_true_iff_false in H
             | H : context [_ && _ = true] |- _ =>
                 rewrite andb_true_iff, !region_fits in H by lia
             end;
      (split; [intros; exfalso; Z.div_mod_to_equations; lia |]);
      (split; [intros H5 W5 Hfit | intros H5 W5 Hfit]);
      try (eexists; reflexivity); try reflexivity;
      exfalso; try (apply Hfit; clear Hfit); Z.div_mod_to_equations; lia.
Qed.

(** ** One frame, end to end *)

(** A frame whose offset computation returns and whose images can be
    stitched returns. *)
Lemma process_pipeline_frame (E : environment) (frame : image)
    (keep_state : bool) (s : session) (off : num) :
  let new_lt := fst (fst (located E frame keep_state s)) in
  let new_rt := snd (fst (located E frame keep_state s)) in
  let s1 := mkSession new_lt new_rt (processed_frames s) in
  compute_offset_from_center (xm_per_pix E) new_lt new_rt
    (inject_Z (snd (shape frame))) s1 = (Returns off, s1, []) ->
  room_for_thumbnails (drawn_of E frame keep_state s) ->
  nonempty_image (binary_of E frame) ->
  nonempty_image (birdeye_of E frame) ->
  nonempty_image (snd (located E frame keep_state s)) ->
  exists blend,
    stitched_of E frame keep_state s off = Returns blend
    /\ process_pipeline E frame keep_state s
       = (Returns blend,
          mkSession new_lt new_rt (processed_frames s + 1),
          trace_until_lines keep_state s
          ++ [Call DrawBackOntoTheRoad; Assign G_processed_frames]).
Proof.
  cbv zeta. intros Hoff Hroom Hb He Hf.
  destruct (prepare_out_blend_frame_fits _ _ _
              (snd (located E frame keep_state s))
              (fst (fst (located E frame keep_state s)))
              (snd (fst (located E frame keep_state s))) off
              (mkSession (fst (fst (located E frame keep_state s)))
                 (snd (fst (located E frame keep_state s)))
                 (processed_frames s))
              Hroom Hb He Hf) as [out Hout].
  pose proof (process_pipeline_run E frame keep_state s) as Hrun.
  cbv zeta in Hrun.
  destruct Hrun
    as [(e & He' & _) | [(off' & e & Ho & Hst & _) | (off' & b & Ho & Hst & Hp)]].
  - rewrite Hoff in He'. discriminate He'.
  - rewrite Hoff in Ho. injection Ho as <-.
    unfold stitched_of in Hst. rewrite Hout in Hst. discriminate Hst.
  - rewrite Hoff in Ho. injection Ho as <-. now exists b.
Qed.

(** What a frame shows.  A frame that [process_pipeline] returns carries
    the mean curvature of the two lines the search has just returned (not
    of the lines of the frame before) and the offset computed from these
    lines and the width of the input frame, on an image of the size of the
    one [draw_back_onto_the_road] drew.  And it returns a frame whenever
    the offset computation returns, the frame drawn has room for the
    thumbnails and the images to show in them are not empty. *)
Theorem frame_shows_new_lines :
  forall (E : environment) (frame : image) (keep_state : bool) (s : session),
    let new_lt := fst (fst (located E frame keep_state s)) in
    let new_rt := snd (fst (located E frame keep_state s)) in
    let s1 := mkSession new_lt new_rt (processed_frames s) in
    (forall blend,
        result_of (process_pipeline E frame keep_state s) = Returns blend ->
        exists base off,
          compute_offset_from_center (xm_per_pix E) new_lt new_rt
            (inject_Z (snd (shape frame))) s1 = (Returns off, s1, [])
          /\ blend
             = PutText
                 (PutText base
                    ("Curvature radius: "
                     ++ format_02f (Fin ((curvature_meter new_lt
                                          + curvature_meter new_rt) / 2))
                     ++ "m")%string
                    (860, 60)%Z cv2_FONT_HERSHEY_SIMPLEX (9 # 10)
                    (255, 255, 255)%Z 2 cv2_LINE_AA)
                 ("Offset from center: " ++ format_02f off ++ "m")%string
                 (860, 130)%Z cv2_FONT_HERSHEY_SIMPLEX (9 # 10)
                 (255, 255, 255)%Z 2 cv2_LINE_AA
          /\ shape base = shape (drawn_of E frame keep_state s))
    /\ (forall off,
           compute_offset_from_center (xm_per_pix E) new_lt new_rt
             (inject_Z (snd (shape frame))) s1 = (Returns off, s1, []) ->
           room_for_thumbnails (drawn_of E frame keep_state s) ->
           nonempty_image (binary_of E frame) ->
           nonempty_image (birdeye_of E frame) ->
           nonempty_image (snd (located E frame keep_state s)) ->
           exists blend,
             result_of (process_pipeline E frame keep_state s) = Returns blend).
Proof.
  intros E frame keep_state s. cbv zeta. split.
  - intros blend Hres.
    pose proof (process_pipeline_run E frame keep_state s) as Hrun.
    cbv zeta in Hrun.
    destruct Hrun
      as [(e & _ & Hp) | [(off & e & _ & _ & Hp) | (off & b & Ho & Hst & Hp)]];
      rewrite Hp in Hres; try discriminate Hres.
    unfold result_of in Hres. cbn [fst] in Hres. injection Hres as ->.
    unfold stitched_of in Hst.
    destruct (prepare_out_blend_frame_returned _ _ _ _ _ _ _ _ _ Hst)
      as (base & -> & Hshape).
    destruct (np_mean_pair
                (curvature_meter (fst (fst (located E frame keep_state s))))
                (curvature_meter (snd (fst (located E frame keep_state s)))))
      as (m & Hm & Em).
    exists base, off.
    split; [exact Ho |]. split; [| exact Hshape].
    now rewrite Hm, (format_02f_compat _ _ Em).
  - intros off Hoff Hroom Hb He Hf.
    destruct (process_pipeline_frame E frame keep_state s off Hoff Hroom Hb
                He Hf) as (blend & _ & ->).
    now exists blend.
Qed.

Lemma offset_sentinel (xm : Q) (lline rline : Line) (w : Q) (s : session) :
  detected lline = false \/ detected rline = false ->
  compute_offset_from_center xm lline rline w s = (Returns (Fin (-1)), s, []).
Proof.
  unfold compute_offset_from_center, offset_branch_of.
  intros [H | H]; rewrite H; [| rewrite andb_false_r]; reflexivity.
Qed.

(** A lost line does not stop the pipeline.  When the search reports one
    of the lines as not detected and the images can be stitched (room for
    the thumbnails, nothing empty to show), [process_pipeline] returns,
    whatever pixels the lines hold; the frame reads
    "Offset from center: -1.00m" and the frame counter advances by one. *)
Theorem frame_with_lost_line :
  forall (E : environment) (frame : image) (keep_state : bool) (s : session),
    let new_lt := fst (fst (located E frame keep_state s)) in
    let new_rt := snd (fst (located E frame keep_state s)) in
    detected new_lt = false \/ detected new_rt = false ->
    room_for_thumbnails (drawn_of E frame keep_state s) ->
    nonempty_image (binary_of E frame) ->
    nonempty_image (birdeye_of E frame) ->
    nonempty_image (snd (located E frame keep_state s)) ->
    exists base curvature_text,
      result_of (process_pipeline E frame keep_state s)
      = Returns
          (PutText
             (PutText base curvature_text
                (860, 60)%Z cv2_FONT_HERSHEY_SIMPLEX (9 # 10)
                (255, 255, 255)%Z 2 cv2_LINE_AA)
             "Offset from center: -1.00m"
             (860, 130)%Z cv2_FONT_HERSHEY_SIMPLEX (9 # 10)
             (255, 255, 255)%Z 2 cv2_LINE_AA)
      /\ processed_frames (session_of (process_pipeline E frame keep_state s))
         = (processed_frames s + 1)%Z.
Proof.
  intros E frame keep_state s new_lt new_rt Hlost Hroom Hb He Hf.
  destruct (process_pipeline_frame E frame keep_state s (Fin (-1)))
    as (blend & Hst & ->); auto.
  { now apply offset_sentinel. }
  unfold stitched_of in Hst.
  destruct (prepare_out_blend_frame_returned _ _ _ _ _ _ _ _ _ Hst)
    as (base & -> & _).
  do 2 eexists. split; reflexivity.
Qed.

(** A line reported as detected without usable pixels stops the frame
    half-way.  When the search returns both lines as detected and one of
    them without y-coordinates or with x- and y-arrays of different
    lengths, [process_pipeline] raises; by then the session holds the
    lines just returned, but the frame counter is not advanced and
    nothing was drawn. *)
Theorem frame_raises_after_lines_assigned :
  forall (E : environment) (frame : image) (keep_state : bool) (s : session),
    let new_lt := fst (fst (located E frame keep_state s)) in
    let new_rt := snd (fst (located E frame keep_state s)) in
    let r := process_pipeline E frame keep_state s in
    detected new_lt = true -> detected new_rt = true ->
    ~ (nonempty_pixel_set new_lt /\ nonempty_pixel_set new_rt) ->
    (exists e, result_of r = Raises e)
    /\ session_of r = mkSession new_lt new_rt (processed_frames s)
    /\ assignments (trace_of r) = [G_line_lt; G_line_rt]
    /\ ~ In (Call DrawBackOntoTheRoad) (trace_of r).
Proof.
  intros E frame keep_state s new_lt new_rt r Dl Dr Hbad. subst r.
  destruct (offset_raises_when (xm_per_pix E) new_lt new_rt
              (inject_Z (snd (shape frame)))
              (mkSession new_lt new_rt (processed_frames s)) Dl Dr Hbad)
    as [e He].
  destruct (process_pipeline_run E frame keep_state s)
    as [(e' & _ & ->) | [(off & e' & Hoff & _) | (off & blend & Hoff & _)]].
  - unfold result_of, session_of, trace_of, trace_until_lines. cbn [fst snd].
    split; [now exists e' |]. split; [reflexivity |].
    destruct (warmb keep_state s); cbn; (split; [reflexivity |]);
      intros H; repeat (destruct H as [H | H]; try discriminate H); exact H.
  - subst new_lt new_rt. rewrite He in Hoff. discriminate Hoff.
  - subst new_lt new_rt. rewrite He in Hoff. discriminate Hoff.
Qed.

(** ** Frame after frame *)

(** With collaborators that keep the size of their image, a frame with
    room for the thumbnails can be stitched. *)
Lemma frame_stitchable (E : environment) (frame : image) (keep_state : bool)
    (s : session) :
  shape_contract E -> room_for_thumbnails frame ->
  room_for_thumbnails (drawn_of E frame keep_state s)
  /\ nonempty_image (binary_of E frame)
  /\ nonempty_image (birdeye_of E frame)
  /\ nonempty_image (snd (located E frame keep_state s)).
Proof.
  intros (Hu & Hb & He & Hp & Hs & Hd) [Hh Hw].
  unfold room_for_thumbnails, nonempty_image, drawn_of, located, binary_of,
    birdeye_of, undistorted_of.
  destruct (warmb keep_state s);
    rewrite ?Hd, ?Hp, ?Hs, ?He, ?Hb, ?Hu; repeat split; lia.
Qed.

Lemma process_pipeline_step (E : environment) (frame : image)
    (keep_state : bool) (s : session) :
  locator_contract E -> shape_contract E -> room_for_thumbnails frame ->
  exists blend,
    process_pipeline E frame keep_state s
    = (Returns blend,
       mkSession (fst (fst (located E frame keep_state s)))
                 (snd (fst (located E frame keep_state s)))
                 (processed_frames s + 1),
       trace_until_lines keep_state s
       ++ [Call DrawBackOntoTheRoad; Assign G_processed_frames]).
Proof.
  intros HC HS Hroom.
  destruct (located_consistent E frame keep_state s HC) as [Cl Cr].
  destruct (offset_returns_on_consistent_lines (xm_per_pix E) _ _
              (inject_Z (snd (shape frame)))
              (mkSession (fst (fst (located E frame keep_state s)))
                         (snd (fst (located E frame keep_state s)))
                         (processed_frames s)) Cl Cr) as [off Hoff].
  destruct (frame_stitchable E frame keep_state s HS Hroom)
    as (Hd & Hb & He & Hf).
  destruct (process_pipeline_frame E frame keep_state s off Hoff Hd Hb He Hf)
    as (blend & _ & Hp).
  now exists blend.
Qed.

Lemma searches_app (t1 t2 : list event) :
  searches (t1 ++ t2) = searches t1 ++ searches t2.
Proof. unfold searches. apply flat_map_app. Qed.

Lemma searches_until_lines (keep_state : bool) (s : session) :
  searches (trace_until_lines keep_state s)
  = [if warmb keep_state s then GetFitsByPreviousFits
     else GetFitsBySlidingWindows].
Proof.
  unfold trace_until_lines. now destruct (warmb keep_state s).
Qed.

Lemma searches_of_frame (keep_state : bool) (s : session) :
  searches (trace_until_lines keep_state s
            ++ [Call DrawBackOntoTheRoad; Assign G_processed_frames])
  = [if warmb keep_state s then GetFitsByPreviousFits
     else GetFitsBySlidingWindows].
Proof.
  rewrite searches_app, searches_until_lines. reflexivity.
Qed.

(** Whether [process_pipeline] returns or raises, it has run the one search
    that its test selects. *)
Lemma searches_of_call (E : environment) (frame : image) (keep_state : bool)
    (s : session) :
  searches (trace_of (process_pipeline E frame keep_state s))
  = [if warmb keep_state s then GetFitsByPreviousFits
     else GetFitsBySlidingWindows].
Proof.
  destruct (process_pipeline_run E frame keep_state s)
    as [(e & _ & ->) | [(off & e & _ & _ & ->) | (off & b & _ & _ & ->)]];
    unfold trace_of; cbn [fst snd];
    rewrite ?searches_app, searches_until_lines; reflexivity.
Qed.

(** Whether [process_pipeline] returns or raises, it leaves the lines of
    its search in the session. *)
Lemma lines_of_call (E : environment) (frame : image) (keep_state : bool)
    (s : session) :
  line_lt (session_of (process_pipeline E frame keep_state s))
  = fst (fst (located E frame keep_state s))
  /\ line_rt (session_of (process_pipeline E frame keep_state s))
     = snd (fst (located E frame keep_state s)).
Proof.
  destruct (process_pipeline_run E frame keep_state s)
    as [(e & _ & ->) | [(off & e & _ & _ & ->) | (off & b & _ & _ & ->)]];
    unfold session_of; cbn [fst snd line_lt line_rt]; split; reflexivity.
Qed.

Lemma process_each_cons (E : environment) (keep_state : bool) (frame : image)
    (rest : list image) (s s1 : session) (blend : image) (t1 : list event) :
  process_pipeline E frame keep_state s = (Returns blend, s1, t1) ->
  process_each E keep_state (frame :: rest) s
  = match process_each E keep_state rest s1 with
    | (Returns blends, s2, t2) => (Returns (blend :: blends), s2, t1 ++ t2 ++ [])
    | (Raises e, s2, t2) => (Raises e, s2, t1 ++ t2)
    end.
Proof.
  intros H. cbn [process_each]. unfold bind at 1. rewrite H.
  unfold bind, ret.
  destruct (process_each E keep_state rest s1) as [[[blends | e] s2] t2];
    reflexivity.
Qed.

Lemma process_images_each (E : environment) (frames : list image) :
  process_images E frames = process_each E false frames.
Proof.
  induction frames as [| f fs IH]; [reflexivity |].
  cbn [process_images process_each]. now rewrite IH.
Qed.

(** The loop over the test images.  With searches that return consistent
    lines, collaborators that keep the size of their image and images of
    at least 18 rows and 147 columns, the loop gives one blend per image,
    advances the frame counter by the number of images and runs the
    sliding-window search for every image, never the search around
    previous fits, whatever the session held before. *)
Theorem images_always_searched_blind :
  forall (E : environment) (frames : list image) (s : session),
    locator_contract E -> shape_contract E ->
    Forall room_for_thumbnails frames ->
    let r := process_images E frames s in
    (exists blends, result_of r = Returns blends
                    /\ length blends = length frames)
    /\ processed_frames (session_of r)
       = (processed_frames s + Z.of_nat (length frames))%Z
    /\ searches (trace_of r) = repeat GetFitsBySlidingWindows (length frames).
Proof.
  intros E frames s HC HS HF. rewrite process_images_each. revert s.
  induction HF as [| f fs Hf HF IH]; intros s r; subst r.
  - cbn. split; [now exists [] |]. split; [lia | reflexivity].
  - destruct (process_pipeline_step E f false s HC HS Hf) as [blend Hstep].
    rewrite (process_each_cons E false f fs s _ blend _ Hstep).
    match type of Hstep with _ = (_, ?s1, _) => specialize (IH s1) end.
    cbv zeta in IH. destruct IH as ((blends & Hres & Hlen) & Hn & Hs).
    destruct (process_each E false fs _) as [[[bs | e] s2] t2];
      unfold result_of, session_of, trace_of in *; cbn [fst snd] in *;
      [| discriminate Hres].
    injection Hres as ->.
    split; [exists (blend :: blends); split; [reflexivity | cbn; now rewrite Hlen] |].
    split.
    + rewrite Hn. cbn [processed_frames length]. lia.
    + rewrite app_nil_r, searches_app, searches_of_frame, Hs.
      assert (W : warmb false s = false)
        by (unfold warmb; now rewrite andb_false_r).
      now rewrite W.
Qed.

Lemma warm_frames (E : environment) (frames : list image) :
  locator_contract E -> shape_contract E -> always_detects E ->
  Forall room_for_thumbnails frames ->
  forall s, (0 < processed_frames s)%Z ->
            detected (line_lt s) = true -> detected (line_rt s) = true ->
  (exists blends, result_of (process_each E true frames s) = Returns blends
                  /\ length blends = length frames)
  /\ searches (trace_of (process_each E true frames s))
     = repeat GetFitsByPreviousFits (length frames).
Proof.
  intros HC HS [Dprev Dslide] HF.
  induction HF as [| f fs Hf HF IH]; intros s Hn Dl Dr.
  - cbn. split; [now exists [] | reflexivity].
  - destruct (process_pipeline_step E f true s HC HS Hf) as [blend Hstep].
    rewrite (process_each_cons E true f fs s _ blend _ Hstep).
    assert (W : warmb true s = true).
    { apply warmb_iff. unfold warm. auto. }
    match type of Hstep with _ = (_, ?s1, _) => specialize (IH s1) end.
    destruct IH as ((blends & Hres & Hlen) & Hs).
    + cbn [processed_frames]. lia.
    + cbn [line_lt]. unfold located. rewrite W. apply Dprev.
    + cbn [line_rt]. unfold located. rewrite W. apply Dprev.
    + destruct (process_each E true fs _) as [[[bs | e] s2] t2];
        unfold result_of, trace_of in *; cbn [fst snd] in *;
        [| discriminate Hres].
      injection Hres as ->.
      split; [exists (blend :: blends); split;
              [reflexivity | cbn; now rewrite Hlen] |].
      now rewrite app_nil_r, searches_app, searches_of_frame, Hs, W.
Qed.

(** Tracking from one frame to the next.  Start with the counter at 0, as
    the notebook does, and call [process_pipeline] with [keep_state=True]
    on one frame after the other.  If the searches always find both lines
    and return consistent ones, the collaborators keep the size of their
    image and every frame has at least 18 rows and 147 columns, then
    every call returns, the first frame is searched with sliding windows
    and every later frame around the fits of the frame before. *)
Theorem first_frame_blind_then_tracking :
  forall (E : environment) (first : image) (rest : list image) (s : session),
    locator_contract E -> shape_contract E -> always_detects E ->
    Forall room_for_thumbnails (first :: rest) ->
    processed_frames s = 0%Z ->
    let r := process_each E true (first :: rest) s in
    (exists blends, result_of r = Returns blends
                    /\ length blends = S (length rest))
    /\ searches (trace_of r)
       = GetFitsBySlidingWindows :: repeat GetFitsByPreviousFits (length rest).
Proof.
  intros E f fs s HC HS HD HF Hn r. subst r.
  inversion HF as [| f' fs' Hf HF']; subst f' fs'.
  destruct (process_pipeline_step E f true s HC HS Hf) as [blend Hstep].
  rewrite (process_each_cons E true f fs s _ blend _ Hstep).
  assert (W : warmb true s = false) by (unfold warmb; now rewrite Hn).
  match type of Hstep with _ = (_, ?s1, _) =>
    destruct (warm_frames E fs HC HS HD HF' s1) as ((blends & Hres & Hlen) & Hs)
  end.
  - cbn [processed_frames]. lia.
  - cbn [line_lt]. unfold located. rewrite W. apply HD.
  - cbn [line_rt]. unfold located. rewrite W. apply HD.
  - destruct (process_each E true fs _) as [[[bs | e] s2] t2];
      unfold result_of, trace_of in *; cbn [fst snd] in *;
      [| discriminate Hres].
    injection Hres as ->.
    split; [exists (blend :: blends); split;
            [reflexivity | cbn; now rewrite Hlen] |].
    now rewrite app_nil_r, searches_app, searches_of_frame, Hs, W.
Qed.

Lemma warmb_lost (keep_state : bool) (s : session) :
  detected (line_lt s) = false \/ detected (line_rt s) = false ->
  warmb keep_state s = false.
Proof.
  unfold warmb. intros [H | H]; rewrite H.
  - now rewrite andb_false_r.
  - now rewrite andb_false_r.
Qed.

(** After a lost line the search starts afresh.  If the search of one
    call of [process_pipeline] reports a line as not detected, then the
    next call on the session that call leaves, whether it returned or
    raised, runs the sliding-window search and no other: for any frame,
    any [keep_state] and whatever the frame counter is. *)
Theorem lost_line_restarts_search :
  forall (E : environment) (frame next : image) (keep_state keep_next : bool)
         (s : session),
    let new_lt := fst (fst (located E frame keep_state s)) in
    let new_rt := snd (fst (located E frame keep_state s)) in
    detected new_lt = false \/ detected new_rt = false ->
    searches
      (trace_of
         (process_pipeline E next keep_next
            (session_of (process_pipeline E frame keep_state s))))
    = [GetFitsBySlidingWindows].
Proof.
  intros E frame next keep_state keep_next s new_lt new_rt Hlost.
  rewrite searches_of_call, warmb_lost; [reflexivity |].
  destruct (lines_of_call E frame keep_state s) as [-> ->]. exact Hlost.
Qed.

(** ** Only the bottom rows count *)

Lemma select_mask_agree : forall (xs xs' : list Q) (mask : list bool),
  length xs = length xs' ->
  (forall i, nth i mask false = true -> nth i xs 0 = nth i xs' 0) ->
  select_mask xs mask = select_mask xs' mask.
Proof.
  induction xs as [| x xs IH]; intros [| x' xs'] mask Hlen H; try discriminate;
    [reflexivity |].
  destruct mask as [| b mask]; [reflexivity |].
  cbn [select_mask]. injection Hlen as Hlen.
  rewrite (IH xs' mask Hlen) by (intros i Hi; apply (H (S i) Hi)).
  destruct b; [| reflexivity].
  pose proof (H 0%nat eq_refl) as E. cbn in E. now rewrite E.
Qed.

Lemma nth_np_greater (thr : Q) : forall (ys : list Q) (i : nat),
  nth i (np_greater ys thr) false = true ->
  (i < length ys)%nat /\ thr < nth i ys 0.
Proof.
  unfold np_greater.
  induction ys as [| y ys IH]; intros [| i] H; cbn in H; try discriminate.
  - split; [cbn; lia | now apply Qgtb_true].
  - destruct (IH i H) as [Hi Hy]. split; [cbn; lia | exact Hy].
Qed.

Lemma line_bottom_far_pixels (line line' : Line) (m : Q) :
  np_max (all_y line) = Returns m ->
  all_y line' = all_y line -> length (all_x line') = length (all_x line) ->
  (forall i, (i < length (all_y line))%nat ->
             (95 # 100) * m < nth i (all_y line) 0 ->
             nth i (all_x line') 0 = nth i (all_x line) 0) ->
  line_bottom line' = line_bottom line.
Proof.
  intros Hmax Hy Hlen Hx. unfold line_bottom, bottom_pixels, np_index_mask.
  rewrite Hy, Hmax, Hlen.
  destruct (Nat.eqb _ _); [| reflexivity].
  rewrite (select_mask_agree (all_x line') (all_x line) _ Hlen); [reflexivity |].
  intros i Hi. destruct (nth_np_greater _ _ _ Hi) as [Hlt Hthr]. now apply Hx.
Qed.

(** The offset looks only at the pixels nearest the vehicle: moving the
    pixels of a line whose y is at most 95% of the line's maximum y (its
    upper part in the image) does not change what
    [compute_offset_from_center] returns or raises, whichever side the
    line is on. *)
Theorem offset_ignores_far_pixels :
  forall (xm : Q) (line line' other : Line) (w m : Q) (s : session),
    np_max (all_y line) = Returns m ->
    detected line' = detected line ->
    all_y line' = all_y line ->
    length (all_x line') = length (all_x line) ->
    (forall i, (i < length (all_y line))%nat ->
               (95 # 100) * m < nth i (all_y line) 0 ->
               nth i (all_x line') 0 = nth i (all_x line) 0) ->
    compute_offset_from_center xm line' other w s
    = compute_offset_from_center xm line other w s
    /\ compute_offset_from_center xm other line' w s
       = compute_offset_from_center xm other line w s.
Proof.
  intros xm line line' other w m s Hmax Hd Hy Hlen Hx.
  pose proof (line_bottom_far_pixels line line' m Hmax Hy Hlen Hx) as Hb.
  unfold compute_offset_from_center, offset_branch_of, bind, lift.
  now rewrite Hd, Hb.
Qed.

(** ** The further properties at the examples *)

Lemma offset_raises_iff_witness :
  exists e, compute_offset_from_center (37 # 7000) example_no_pixels
              example_right 1280 initial_session
            = (Raises e, initial_session, []).
Proof.
  apply (proj2 (offset_raises_iff (37 # 7000) example_no_pixels example_right
                  1280 initial_session)).
  split; [reflexivity |]. split; [reflexivity |].
  intros [[H _] _]. now apply H.
Defined.

Lemma offset_exception_kind_witness :
  compute_offset_from_center (37 # 7000) example_no_pixels example_mismatched
    1280 initial_session = (Raises ValueError, initial_session, [])
  /\ compute_offset_from_center (37 # 7000) example_mismatched example_no_pixels
       1280 initial_session = (Raises IndexError, initial_session, []).
Proof.
  split.
  - apply (proj1 (offset_exception_kind (37 # 7000) example_no_pixels
                    example_mismatched 1280 initial_session
                    eq_refl eq_refl)).
    reflexivity.
  - apply (proj1 (proj2 (offset_exception_kind (37 # 7000) example_mismatched
                           example_no_pixels 1280 initial_session
                           eq_refl eq_refl))).
    + discriminate.
    + cbn. lia.
Defined.

Lemma offset_nan_without_positive_row_witness :
  compute_offset_from_center (37 # 7000) example_top_row example_right 1280
    initial_session = (Returns NaN, initial_session, []).
Proof.
  apply (offset_nan_without_positive_row (37 # 7000) example_top_row
           example_right 1280 initial_session).
  - reflexivity.
  - reflexivity.
  - split; [discriminate | reflexivity].
  - split; [discriminate | reflexivity].
  - left. intros y [<- | [<- | []]]; vm_compute; discriminate.
Defined.

Lemma offset_finite_with_positive_rows_witness :
  exists v, compute_offset_from_center (37 # 7000) example_left_moved
              example_right_moved 1280 initial_session
            = (Returns (Fin v), initial_session, []) /\ 0 <= v.
Proof.
  apply (offset_finite_with_positive_rows (37 # 7000) example_left_moved
           example_right_moved 1280 initial_session).
  - reflexivity.
  - reflexivity.
  - split; [discriminate | reflexivity].
  - split; [discriminate | reflexivity].
  - exists 100. split; [now left | reflexivity].
  - exists 100. split; [now left | reflexivity].
  - vm_compute. discriminate.
Defined.

Lemma offset_at_most_half_width_witness :
  exists v, compute_offset_from_center (37 # 7000) example_left_moved
              example_right_moved 1280 initial_session
            = (Returns (Fin v), initial_session, [])
            /\ v <= (37 # 7000) * (1280 / 2).
Proof.
  apply (offset_at_most_half_width (37 # 7000) example_left_moved
           example_right_moved 1280 initial_session).
  - reflexivity.
  - reflexivity.
  - split; [discriminate | reflexivity].
  - split; [discriminate | reflexivity].
  - exists 100. split; [now left | reflexivity].
  - exists 100. split; [now left | reflexivity].
  - intros x [<- | [<- | [<- | []]]]; split; vm_compute; discriminate.
  - intros x [<- | [<- | [<- | []]]]; split; vm_compute; discriminate.
  - vm_compute. discriminate.
Defined.

Lemma offset_ignores_far_pixels_witness :
  compute_offset_from_center (37 # 7000) example_left_far_moved example_right
    1280 initial_session
  = compute_offset_from_center (37 # 7000) example_left example_right
      1280 initial_session
  /\ compute_offset_from_center (37 # 7000) example_right
       example_left_far_moved 1280 initial_session
     = compute_offset_from_center (37 # 7000) example_right example_left
         1280 initial_session.
Proof.
  apply (offset_ignores_far_pixels (37 # 7000) example_left
           example_left_far_moved example_right 1280 710 initial_session).
  - reflexivity.
  - reflexivity.
  - reflexivity.
  - reflexivity.
  - intros [| [| [| i]]] Hi Hy; try reflexivity.
    exfalso. revert Hy. vm_compute. discriminate.
Defined.

Lemma stitching_returns_iff_witness :
  (exists out,
      result_of (prepare_out_blend_frame example_frame example_frame
                   example_frame example_frame example_left example_right
                   (Fin 0) initial_session) = Returns out)
  /\ result_of (prepare_out_blend_frame example_narrow_frame example_frame
                  example_frame example_frame example_left example_right
                  (Fin 0) initial_session) = Raises ValueError.
Proof.
  split.
  - apply (stitching_returns_iff example_frame example_frame example_frame
             example_frame example_left example_right (Fin 0) initial_session
             720 1280);
      try reflexivity; try (split; reflexivity); try lia; try discriminate.
  - apply (stitching_returns_iff example_narrow_frame example_frame
             example_frame example_frame example_left example_right (Fin 0)
             initial_session 720 145);
      try reflexivity; try (split; reflexivity); try lia; try discriminate.
Defined.

Lemma frame_shows_new_lines_witness :
  exists blend base off,
    result_of (process_pipeline example_environment example_frame true
                 initial_session) = Returns blend
    /\ compute_offset_from_center (37 # 7000) example_left example_right 1280
         (mkSession example_left example_right 0)
       = (Returns off, mkSession example_left example_right 0, [])
    /\ blend
       = PutText
           (PutText base
              ("Curvature radius: "
               ++ format_02f (Fin ((curvature_meter example_left
                                    + curvature_meter example_right) / 2))
               ++ "m")%string
              (860, 60)%Z cv2_FONT_HERSHEY_SIMPLEX (9 # 10)
              (255, 255, 255)%Z 2 cv2_LINE_AA)
           ("Offset from center: " ++ format_02f off ++ "m")%string
           (860, 130)%Z cv2_FONT_HERSHEY_SIMPLEX (9 # 10)
           (255, 255, 255)%Z 2 cv2_LINE_AA
    /\ shape base = shape example_frame.
Proof.
  destruct (frame_shows_new_lines example_environment example_frame true
              initial_session) as [Hshows Hreturns].
  destruct (Hreturns (Fin (0 # 224000))) as [blend Hblend].
  - vm_compute. reflexivity.
  - split; cbn; lia.
  - split; reflexivity.
  - split; reflexivity.
  - split; reflexivity.
  - destruct (Hshows blend Hblend) as (base & off & Hoff & Eblend & Hshape).
    exists blend, base, off. split; [exact Hblend |].
    split; [exact Hoff |]. split; [exact Eblend | exact Hshape].
Defined.

Lemma frame_with_lost_line_witness :
  exists base curvature_text,
    result_of (process_pipeline example_blind_environment example_frame true
                 initial_session)
    = Returns
        (PutText
           (PutText base curvature_text
              (860, 60)%Z cv2_FONT_HERSHEY_SIMPLEX (9 # 10)
              (255, 255, 255)%Z 2 cv2_LINE_AA)
           "Offset from center: -1.00m"
           (860, 130)%Z cv2_FONT_HERSHEY_SIMPLEX (9 # 10)
           (255, 255, 255)%Z 2 cv2_LINE_AA)
    /\ processed_frames
         (session_of (process_pipeline example_blind_environment example_frame
                        true initial_session))
       = (processed_frames initial_session + 1)%Z.
Proof.
  apply (frame_with_lost_line example_blind_environment example_frame true
           initial_session).
  - left. reflexivity.
  - split; cbn; lia.
  - split; reflexivity.
  - split; reflexivity.
  - split; reflexivity.
Defined.

Lemma frame_raises_after_lines_assigned_witness :
  let r := process_pipeline example_faulty_environment example_frame true
             initial_session in
  (exists e, result_of r = Raises e)
  /\ session_of r = mkSession example_no_pixels example_right 0
  /\ assignments (trace_of r) = [G_line_lt; G_line_rt]
  /\ ~ In (Call DrawBackOntoTheRoad) (trace_of r).
Proof.
  apply (frame_raises_after_lines_assigned example_faulty_environment
           example_frame true initial_session).
  - reflexivity.
  - reflexivity.
  - intros [[H _] _]. now apply H.
Defined.

Lemma images_always_searched_blind_witness :
  let r := process_images example_environment [example_frame; example_frame]
             (mkSession example_left example_right 3) in
  (exists blends, result_of r = Returns blends
                  /\ length blends = length [example_frame; example_frame])
  /\ processed_frames (session_of r)
     = (3 + Z.of_nat (length [example_frame; example_frame]))%Z
  /\ searches (trace_of r)
     = repeat GetFitsBySlidingWindows (length [example_frame; example_frame]).
Proof.
  apply (images_always_searched_blind example_environment
           [example_frame; example_frame]
           (mkSession example_left example_right 3)).
  - split; intros; split; intros _; (split; [discriminate | reflexivity]).
  - repeat split.
  - repeat constructor; cbn; lia.
Defined.

Lemma first_frame_blind_then_tracking_witness :
  let r := process_each example_environment true
             [example_frame; example_frame; example_frame]
             (notebook_session 10) in
  (exists blends, result_of r = Returns blends
                  /\ length blends = 3%nat)
  /\ searches (trace_of r)
     = [GetFitsBySlidingWindows; GetFitsByPreviousFits; GetFitsByPreviousFits].
Proof.
  apply (first_frame_blind_then_tracking example_environment example_frame
           [example_frame; example_frame] (notebook_session 10)).
  - split; intros; split; intros _; (split; [discriminate | reflexivity]).
  - repeat split.
  - split; intros; split; reflexivity.
  - repeat constructor; cbn; lia.
  - reflexivity.
Defined.

Lemma lost_line_restarts_search_witness :
  searches
    (trace_of
       (process_pipeline example_blind_environment example_frame true
          (session_of
             (process_pipeline example_blind_environment example_frame true
                (mkSession example_left example_right 3)))))
  = [GetFitsBySlidingWindows].
Proof.
  apply (lost_line_restarts_search example_blind_environment example_frame
           example_frame true true (mkSession example_left example_right 3)).
  left. reflexivity.
Defined.
